(** * iOSDevOpsAutomation: the Semgrep wrapper and the Xcode manifest patcher

    A shallow embedding of the two Python scripts of the repository,

    - [scripts/add_resources_to_project.py] (module [Patcher]), and
    - [iOSDevOpsAutomation/Resources/semgrep_standalone.py] (module [Scanner]),

    together with the Python string and [re] primitives they rely on
    (module [Py]) and [uuid.uuid4] (module [Uuid]).  The modules
    [PatcherSpec] and [ScannerSpec] hold the vocabulary of the properties;
    the lemmas follow, and the properties of the specification are proved
    in [PatcherClaims] and [ScannerClaims].

    Python [str] values are sequences of Unicode code points; they are
    modelled as lists of code points ([list N]). *)

From Stdlib Require Import NArith ZArith List Ascii String Lia Bool.
From stdpp Require Import base option list gmap.

Local Open Scope N_scope.

Abbreviation pystr := (list N).

(* ===================================================================== *)
(** * Python string primitives *)
(* ===================================================================== *)

Module Py.

(** A string literal of the source, as code points (ASCII literals only). *)
Definition py (s : string) : pystr :=
  map N_of_ascii (list_ascii_of_string s).

Definition nl : pystr := [10].   (* "\n" *)
Definition dq : pystr := [34].   (* the double quote *)

Fixpoint tabs (n : nat) : pystr :=
  match n with
  | O => []
  | S n' => 9 :: tabs n'
  end.

(** [str.isspace] on one character, which is also what [\s] matches in a
    [str] pattern: the ASCII controls 9..13 and 28..31, the blank, and the
    Unicode white space characters. *)
Definition isspace (c : N) : bool :=
  ((9 <=? c) && (c <=? 13)) || ((28 <=? c) && (c <=? 32))
  || (c =? 133) || (c =? 160) || (c =? 5760)
  || ((8192 <=? c) && (c <=? 8202))
  || (c =? 8232) || (c =? 8233) || (c =? 8239) || (c =? 8287)
  || (c =? 12288).

Fixpoint lstrip (s : pystr) : pystr :=
  match s with
  | [] => []
  | c :: s' => if isspace c then lstrip s' else s
  end.

Definition rstrip (s : pystr) : pystr := rev (lstrip (rev s)).

(** [s.strip()] *)
Definition strip (s : pystr) : pystr := lstrip (rstrip s).

(** [s.startswith(p)], returning what follows the prefix. *)
Fixpoint strip_prefix (p s : pystr) : option pystr :=
  match p, s with
  | [], _ => Some s
  | _ :: _, [] => None
  | a :: p', b :: s' => if a =? b then strip_prefix p' s' else None
  end.

(** [s.partition(sep)] when [sep] occurs: the text before and after the
    leftmost occurrence of [sep]. *)
Fixpoint find_sub (sep s : pystr) : option (pystr * pystr) :=
  match strip_prefix sep s with
  | Some r => Some ([], r)
  | None =>
      match s with
      | [] => None
      | c :: s' =>
          match find_sub sep s' with
          | Some (a, b) => Some (c :: a, b)
          | None => None
          end
      end
  end.

(** [needle in hay] *)
Definition contains (needle hay : pystr) : bool :=
  match find_sub needle hay with
  | Some _ => true
  | None => false
  end.

(** [s.split(sep)] for a non-empty [sep].  Every separator found consumes
    at least one character, so [length s] rounds always suffice. *)
Fixpoint split_loop (fuel : nat) (sep s : pystr) : list pystr :=
  match fuel with
  | O => [s]
  | S n =>
      match find_sub sep s with
      | None => [s]
      | Some (a, b) => a :: split_loop n sep b
      end
  end.

Definition split (sep s : pystr) : list pystr :=
  split_loop (length s) sep s.

(** [sep.join(parts)] *)
Fixpoint join (sep : pystr) (parts : list pystr) : pystr :=
  match parts with
  | [] => []
  | [x] => x
  | x :: rest => x ++ sep ++ join sep rest
  end.

(** [lines.insert(i, x)] for [0 <= i]: past the end it appends. *)
Definition list_insert_at {A} (i : nat) (x : A) (l : list A) : list A :=
  take i l ++ x :: drop i l.

(** [s.replace(old, "")] for a one-character [old]. *)
Definition remove_char (c : N) (s : pystr) : pystr :=
  filter (fun x => x ≠ c) s.

(** [s.upper()] on ASCII letters (it is applied to hexadecimal text only). *)
Definition upper_char (c : N) : N :=
  if (97 <=? c) && (c <=? 122) then c - 32 else c.

Definition upper (s : pystr) : pystr := map upper_char s.

(* --------------------------------------------------------------------- *)
(** ** The fragment of [re] used by the patcher

    The five patterns of the patcher are sequences of capture groups, each
    a sequence of literals and of the greedy repetitions [\s+] and [[^}]+]
    (with [re.DOTALL] or without: no pattern contains a dot).  The matcher
    is the backtracking matcher of [re]: a repetition first tries to take
    one more character, and gives characters back one at a time when the
    rest of the pattern fails. *)

Inductive cclass := Space | NotBrace.

Definition in_class (c : cclass) (x : N) : bool :=
  match c with
  | Space => isspace x
  | NotBrace => negb (x =? 125)
  end.

Inductive item :=
| Lit (s : pystr)
| Plus (c : cclass).

Abbreviation group := (list item).
Abbreviation regex := (list group).

Section Matcher.
Context {R : Type}.

(** One or more characters of class [c], then the continuation [k]. *)
Definition match_plus (c : cclass) (k : pystr -> option (pystr * R))
  : pystr -> option (pystr * R) :=
  fix loop (s : pystr) :=
    match s with
    | [] => None
    | x :: s' =>
        if in_class c x then
          match loop s' with
          | Some (m, r) => Some (x :: m, r)
          | None =>
              match k s' with
              | Some (m, r) => Some (x :: m, r)
              | None => None
              end
          end
        else None
    end.

(** The items of one group, then the continuation [k]; returns the text
    the group matched and the result of the continuation. *)
Fixpoint match_items (its : list item) (k : pystr -> option R) (s : pystr)
  : option (pystr * R) :=
  match its with
  | [] =>
      match k s with
      | Some r => Some ([], r)
      | None => None
      end
  | Lit l :: its' =>
      match strip_prefix l s with
      | Some s' =>
          match match_items its' k s' with
          | Some (m, r) => Some (l ++ m, r)
          | None => None
          end
      | None => None
      end
  | Plus c :: its' => match_plus c (match_items its' k) s
  end.
End Matcher.

(** [pattern.match(s)]: the texts of the groups and the unmatched rest. *)
Fixpoint match_groups (re : regex) (s : pystr) : option (list pystr * pystr) :=
  match re with
  | [] => Some ([], s)
  | g :: re' =>
      match match_items g (match_groups re') s with
      | Some (m, (ms, rest)) => Some (m :: ms, rest)
      | None => None
      end
  end.

(** [re.search(pattern, s)]: the leftmost match, as the text before it,
    its groups and the text after it. *)
Fixpoint re_search (re : regex) (s : pystr)
  : option (pystr * list pystr * pystr) :=
  match match_groups re s with
  | Some (gs, rest) => Some ([], gs, rest)
  | None =>
      match s with
      | [] => None
      | c :: s' =>
          match re_search re s' with
          | Some (pre, gs, rest) => Some (c :: pre, gs, rest)
          | None => None
          end
      end
  end.

(** [re.finditer(pattern, s)]: the successive non-overlapping matches from
    left to right, each with the unmatched text before it, and the text
    after the last match.  No pattern of the patcher matches the empty
    string, so every match consumes a character and [length s] rounds
    suffice. *)
Fixpoint finditer_loop (fuel : nat) (re : regex) (s : pystr)
  : list (pystr * list pystr) * pystr :=
  match fuel with
  | O => ([], s)
  | S n =>
      match re_search re s with
      | None => ([], s)
      | Some (pre, gs, rest) =>
          let '(ms, tail) := finditer_loop n re rest in
          ((pre, gs) :: ms, tail)
      end
  end.

Definition re_finditer (re : regex) (s : pystr)
  : list (pystr * list pystr) * pystr :=
  finditer_loop (length s) re s.

(** [re.sub(pattern, repl, s)] with a callable [repl]: the matches are
    visited from left to right and [repl] is called once on each; [repl]
    may have an effect on a state [S] (here: drawing a random number). *)
Fixpoint sub_fold {S : Type} (repl : list pystr -> S -> pystr * S)
    (ms : list (pystr * list pystr)) (st : S) : pystr * S :=
  match ms with
  | [] => ([], st)
  | (pre, gs) :: ms' =>
      let '(r, st1) := repl gs st in
      let '(out, st2) := sub_fold repl ms' st1 in
      (pre ++ r ++ out, st2)
  end.

Definition re_sub_with {S : Type} (re : regex)
    (repl : list pystr -> S -> pystr * S) (s : pystr) (st : S) : pystr * S :=
  let '(ms, tail) := re_finditer re s in
  let '(out, st') := sub_fold repl ms st in
  (out ++ tail, st').

(** [re.sub(pattern, repl, s)] with a string [repl] that has no group
    reference: every match is replaced by the same text. *)
Definition re_sub (re : regex) (repl : pystr) (s : pystr) : pystr :=
  fst (re_sub_with re (fun _ (u : unit) => (repl, u)) s tt).

(** The number of substitutions [re.sub] makes. *)
Definition match_count (re : regex) (s : pystr) : nat :=
  length (fst (re_finditer re s)).

(** A pattern is productive when each of its matches consumes a character. *)
Definition productive (re : regex) : Prop :=
  forall s gs rest,
    match_groups re s = Some (gs, rest) -> (length rest < length s)%nat.

End Py.

(* ===================================================================== *)
(** * Random identifiers: [uuid.uuid4] *)
(* ===================================================================== *)

Module Uuid.
Import Py.

(** The random source: the successive 128-bit values the system's random
    number generator hands out, and how many of them have been read. *)
Record rng := Rng {
  source : nat -> N;
  position : nat
}.

Definition draw (r : rng) : N * rng :=
  (source r (position r) mod 2 ^ 128, Rng (source r) (S (position r))).

(** [uuid.uuid4()]: 128 random bits with the variant and version fields
    forced, as the [UUID] constructor does for [version=4]. *)
Definition set_version4 (i : N) : N :=
  let i := N.ldiff i (N.shiftl 49152 48) in      (* int &= ~(0xc000 << 48) *)
  let i := N.lor i (N.shiftl 32768 48) in        (* int |= 0x8000 << 48 *)
  let i := N.ldiff i (N.shiftl 61440 64) in      (* int &= ~(0xf000 << 64) *)
  N.lor i (N.shiftl 4 76).                       (* int |= version << 76 *)

Definition uuid4 (r : rng) : N * rng :=
  let '(bits, r') := draw r in (set_version4 bits, r').

Definition hex_digit (d : N) : N :=
  if d <? 10 then 48 + d else 87 + d.

(** ['%032x' % int] *)
Definition hex32 (i : N) : pystr :=
  map (fun k => hex_digit (N.land (N.shiftr i (4 * (31 - N.of_nat k))) 15))
      (seq 0 32).

(** [str(uuid)]: the 32 hexadecimal digits in groups of 8-4-4-4-12. *)
Definition uuid_str (u : N) : pystr :=
  let h := hex32 u in
  take 8 h ++ [45] ++ take 4 (drop 8 h) ++ [45] ++ take 4 (drop 12 h)
  ++ [45] ++ take 4 (drop 16 h) ++ [45] ++ drop 20 h.

End Uuid.

(* ===================================================================== *)
(** * The manifest patcher: [scripts/add_resources_to_project.py] *)
(* ===================================================================== *)

Module Patcher.
Import Py Uuid.

Definition project_file : pystr :=
  py "iOSDevOpsAutomation.xcodeproj/project.pbxproj".

(** [str(uuid.uuid4()).replace('-', '').upper()[:24]] *)
Definition new_id (r : rng) : pystr * rng :=
  let '(u, r') := uuid4 r in
  (take 24 (upper (remove_char 45 (uuid_str u))), r').

(** [main_group_pattern] *)
Definition main_group_pattern : regex :=
  [ [Lit (py "/* Begin PBXGroup section */"); Plus Space; Plus NotBrace;
     Lit (py "mainGroup = {"); Plus NotBrace; Lit (py "children = (");
     Plus Space];
    [Plus NotBrace];
    [Plus Space; Lit (py ");"); Plus NotBrace; Lit (py "};")] ].

(** The test of the loop of [add_resources_to_main_group]:
    ['/*' in line and '*/' in line and '/*' in line.split('/*')[1]]. *)
Definition is_group_line (line : pystr) : bool :=
  contains (py "/*") line && contains (py "*/") line
  && contains (py "/*") (nth 1 (split (py "/*") line) []).

(** The loop of [add_resources_to_main_group]: the index of the last line
    that passes the test, or -1. *)
Definition last_group_line (lines : list pystr) : Z :=
  fold_left
    (fun (last : Z) '(i, line) =>
       if is_group_line line then Z.of_nat i else last)
    (combine (seq 0 (length lines)) lines) (-1)%Z.

Definition resources_entry (resources_group_id : pystr) : pystr :=
  tabs 4 ++ resources_group_id ++ py " /* Resources */," ++ nl.

(** The callback [add_resources_to_main_group], on the three groups of a
    match of [main_group_pattern]. *)
Definition add_resources_to_main_group (resources_group_id : pystr)
    (groups : list pystr) : pystr :=
  match groups with
  | [prefix; children; suffix] =>
      let lines := split nl children in
      let last := last_group_line lines in
      let lines :=
        if (0 <=? last)%Z
        then list_insert_at (Z.to_nat (last + 1)) (resources_entry resources_group_id) lines
        else lines ++ [resources_entry resources_group_id] in
      prefix ++ join nl lines ++ suffix
  | _ => concat groups
  end.

(** [resources_group_def] *)
Definition resources_group_def (resources_group_id semgrep_file_id : pystr)
  : pystr :=
  nl ++ tabs 2 ++ resources_group_id ++ py " /* Resources */ = {"
  ++ nl ++ tabs 3 ++ py "isa = PBXGroup;"
  ++ nl ++ tabs 3 ++ py "children = ("
  ++ nl ++ tabs 4 ++ semgrep_file_id ++ py " /* semgrep */,"
  ++ nl ++ tabs 3 ++ py ");"
  ++ nl ++ tabs 3 ++ py "path = Resources;"
  ++ nl ++ tabs 3 ++ py "sourceTree = " ++ dq ++ py "<group>" ++ dq ++ py ";"
  ++ nl ++ tabs 2 ++ py "};".

(** [semgrep_file_ref] *)
Definition semgrep_file_ref (semgrep_file_id : pystr) : pystr :=
  nl ++ tabs 2 ++ semgrep_file_id ++ py " /* semgrep */ = {"
  ++ nl ++ tabs 3 ++ py "isa = PBXFileReference;"
  ++ nl ++ tabs 3 ++ py "lastKnownFileType = text.script.python;"
  ++ nl ++ tabs 3 ++ py "path = semgrep;"
  ++ nl ++ tabs 3 ++ py "sourceTree = " ++ dq ++ py "<group>" ++ dq ++ py ";"
  ++ nl ++ tabs 2 ++ py "};".

(** [resources_build_phase_pattern] *)
Definition resources_build_phase_pattern : regex :=
  [ [Lit (py "02DAD4482E70CC2D00BB3786 /* Resources */ = {"); Plus NotBrace;
     Lit (py "files = ("); Plus Space];
    [Plus NotBrace];
    [Plus Space; Lit (py ");"); Plus NotBrace; Lit (py "};")] ].

Definition semgrep_entry (semgrep_build_file_id : pystr) : pystr :=
  tabs 4 ++ semgrep_build_file_id ++ py " /* semgrep in Resources */," ++ nl.

(** The callback [add_semgrep_to_resources]: it draws an identifier of its
    own on every call. *)
Definition add_semgrep_to_resources (groups : list pystr) (r : rng)
  : pystr * rng :=
  match groups with
  | [prefix; files; suffix] =>
      let '(semgrep_build_file_id, r') := new_id r in
      let files_lines := split nl files ++ [semgrep_entry semgrep_build_file_id] in
      (prefix ++ join nl files_lines ++ suffix, r')
  | _ => (concat groups, r)
  end.

(** [semgrep_build_file_ref] *)
Definition semgrep_build_file_ref (semgrep_build_file_id semgrep_file_id : pystr)
  : pystr :=
  nl ++ tabs 2 ++ semgrep_build_file_id ++ py " /* semgrep in Resources */ = {"
  ++ nl ++ tabs 3 ++ py "isa = PBXBuildFile;"
  ++ nl ++ tabs 3 ++ py "fileRef = " ++ semgrep_file_id ++ py " /* semgrep */;"
  ++ nl ++ tabs 2 ++ py "};".

(** The three section markers that are replaced by a block followed by the
    marker itself.  The replacement templates of the source spell the two
    line feeds and the two tabs before the marker as escapes, which
    [re.sub] expands; the blocks themselves hold no backslash. *)
Definition end_group_marker : pystr := py "/* End PBXGroup section */".
Definition end_file_reference_marker : pystr :=
  py "/* End PBXFileReference section */".
Definition end_build_file_marker : pystr := py "/* End PBXBuildFile section */".

Definition before_marker (block marker : pystr) : pystr :=
  block ++ nl ++ nl ++ tabs 2 ++ marker.

(** The five substitutions, in the order of the source. *)

(** [content = re.sub(main_group_pattern, add_resources_to_main_group, content, flags=re.DOTALL)] *)
Definition sub_main_group (resources_group_id content : pystr) : pystr :=
  fst (re_sub_with main_group_pattern
         (fun gs (u : unit) => (add_resources_to_main_group resources_group_id gs, u))
         content tt).

Definition sub_group_def (resources_group_id semgrep_file_id content : pystr)
  : pystr :=
  re_sub [[Lit end_group_marker]]
    (before_marker (resources_group_def resources_group_id semgrep_file_id)
       end_group_marker)
    content.

Definition sub_file_ref (semgrep_file_id content : pystr) : pystr :=
  re_sub [[Lit end_file_reference_marker]]
    (before_marker (semgrep_file_ref semgrep_file_id) end_file_reference_marker)
    content.

(** [content = re.sub(resources_build_phase_pattern, add_semgrep_to_resources, content, flags=re.DOTALL)] *)
Definition sub_build_phase (content : pystr) (r : rng) : pystr * rng :=
  re_sub_with resources_build_phase_pattern add_semgrep_to_resources content r.

Definition sub_build_file (semgrep_build_file_id semgrep_file_id content : pystr)
  : pystr :=
  re_sub [[Lit end_build_file_marker]]
    (before_marker (semgrep_build_file_ref semgrep_build_file_id semgrep_file_id)
       end_build_file_marker)
    content.

(** The text transformation of [add_resources_to_project], from the
    content read to the content written. *)
Definition patch_content (content : pystr) (r : rng) : pystr * rng :=
  let '(resources_group_id, r) := new_id r in
  let '(semgrep_file_id, r) := new_id r in
  let content := sub_main_group resources_group_id content in
  let content := sub_group_def resources_group_id semgrep_file_id content in
  let content := sub_file_ref semgrep_file_id content in
  let '(content, r) := sub_build_phase content r in
  let '(semgrep_build_file_id, r) := new_id r in
  let content := sub_build_file semgrep_build_file_id semgrep_file_id content in
  (content, r).

(** The world of the script: the regular files by path, each with its
    text as [read()] returns it and [write()] takes it, what has been
    printed, and the random source.  [os.path.exists] is taken on regular
    files only. *)
Record world := World {
  files : gmap pystr pystr;
  printed : list pystr;
  random : rng
}.

Definition print (line : pystr) (w : world) : world :=
  World (files w) (printed w ++ [line]) (random w).

Definition msg_not_found : pystr := 10060 :: py " Project file not found".
Definition msg_added : pystr :=
  9989 :: py " Resources folder added to Xcode project".

(** [add_resources_to_project()]: its return value and the world after. *)
Definition add_resources_to_project (w : world) : bool * world :=
  match files w !! project_file with
  | None => (false, print msg_not_found w)
  | Some content =>
      let '(content', r') := patch_content content (random w) in
      (true, print msg_added (World (<[project_file := content']> (files w)) (printed w) r'))
  end.

End Patcher.

(* ===================================================================== *)
(** * The manifest patcher: the vocabulary of its properties *)
(* ===================================================================== *)

Module PatcherSpec.
Import Py Uuid Patcher.

(** ** The identifiers and the stages of one run *)

(** The random source after [k] more draws. *)
Definition shift (k : nat) (r : rng) : rng :=
  Rng (source r) (k + position r).

(** The identifier made from the [k]-th next value of the random source. *)
Definition id_of_draw (r : rng) (k : nat) : pystr := fst (new_id (shift k r)).

(** The text after each of the first four substitutions of a run on
    [content] with the random source [r]; the build-phase substitution
    also returns the random source it leaves. *)
Definition after_main_group (content : pystr) (r : rng) : pystr :=
  sub_main_group (id_of_draw r 0) content.

Definition after_group_def (content : pystr) (r : rng) : pystr :=
  sub_group_def (id_of_draw r 0) (id_of_draw r 1) (after_main_group content r).

Definition after_file_ref (content : pystr) (r : rng) : pystr :=
  sub_file_ref (id_of_draw r 1) (after_group_def content r).

Definition after_build_phase (content : pystr) (r : rng) : pystr * rng :=
  sub_build_phase (after_file_ref content r) (shift 2 r).

(** ** One new entry in a place *)

(** [t'] is [t] with [entry] appended, on a line of its own, to the list
    that the second group of [re] matches (the children of the root group,
    the files of the build phase). *)
Definition appended_to_list (re : regex) (entry t t' : pystr) : Prop :=
  exists pre g1 g2 g3 rest,
    t = pre ++ g1 ++ g2 ++ g3 ++ rest /\
    match_groups re (g1 ++ g2 ++ g3 ++ rest) = Some ([g1; g2; g3], rest) /\
    t' = pre ++ g1 ++ g2 ++ nl ++ entry ++ g3 ++ rest.

(** [t'] is [t] with [block], two line feeds and two tabs inserted in front
    of one occurrence of [marker]. *)
Definition inserted_before (marker block t t' : pystr) : Prop :=
  exists pre rest,
    t = pre ++ marker ++ rest /\
    t' = pre ++ block ++ nl ++ nl ++ tabs 2 ++ marker ++ rest.

(** Each of the five patterns matches exactly once in the text its
    substitution is applied to. *)
Definition unique_matches (content : pystr) (r : rng) : Prop :=
  match_count main_group_pattern content = 1%nat /\
  match_count [[Lit end_group_marker]] (after_main_group content r) = 1%nat /\
  match_count [[Lit end_file_reference_marker]] (after_group_def content r) = 1%nat /\
  match_count resources_build_phase_pattern (after_file_ref content r) = 1%nat /\
  match_count [[Lit end_build_file_marker]] (fst (after_build_phase content r)) = 1%nat.

(** From [content] to [out], one new entry in each of the five places: the
    children of the root group, the group definitions, the file
    references, the files of the Resources build phase, the build-file
    records; the identifiers are the next four of the random source. *)
Definition one_new_entry_in_each_place (content : pystr) (r : rng)
    (out : pystr) : Prop :=
  exists t1 t2 t3 t4,
    appended_to_list main_group_pattern
      (resources_entry (id_of_draw r 0)) content t1 /\
    inserted_before end_group_marker
      (resources_group_def (id_of_draw r 0) (id_of_draw r 1)) t1 t2 /\
    inserted_before end_file_reference_marker
      (semgrep_file_ref (id_of_draw r 1)) t2 t3 /\
    appended_to_list resources_build_phase_pattern
      (semgrep_entry (id_of_draw r 2)) t3 t4 /\
    inserted_before end_build_file_marker
      (semgrep_build_file_ref (id_of_draw r 3) (id_of_draw r 1)) t4 out.

(** The text [re.sub] builds from the matches [ms] of
    [resources_build_phase_pattern] when the [i]-th match gets the entry
    whose identifier is made from draw [i + first]. *)
Definition with_entries (r : rng) (first : nat)
    (ms : list (pystr * list pystr)) : pystr :=
  concat
    (imap (fun i m =>
             fst m ++ nth 0 (snd m) [] ++ nth 1 (snd m) [] ++ nl
             ++ semgrep_entry (id_of_draw r (i + first)) ++ nth 2 (snd m) [])
          ms).

(** The record [record] is the build-file record of identifier [id]. *)
Definition keyed_by (id record : pystr) : Prop :=
  exists rest,
    record = nl ++ tabs 2 ++ id ++ py " /* semgrep in Resources */ = {" ++ rest.

(** The five patterns each have a match in [content]. *)
Definition has_required_markers (content : pystr) : bool :=
  forallb
    (fun re => match re_search re content with Some _ => true | None => false end)
    [ main_group_pattern; [[Lit end_group_marker]];
      [[Lit end_file_reference_marker]]; resources_build_phase_pattern;
      [[Lit end_build_file_marker]] ].

(** ** Sample manifests *)

(** A manifest of the shape the patcher assumes, with each section once. *)
Definition sample_manifest : pystr :=
  join nl [
    py "// !$*UTF8*$!";
    py "{";
    tabs 1 ++ py "objects = {";
    py "";
    py "/* Begin PBXBuildFile section */";
    tabs 2 ++ py "AA01 /* App.swift in Sources */ = {isa = PBXBuildFile; fileRef = AA02 /* App.swift */; };";
    py "/* End PBXBuildFile section */";
    py "";
    py "/* Begin PBXFileReference section */";
    tabs 2 ++ py "AA02 /* App.swift */ = {isa = PBXFileReference; path = App.swift; sourceTree = SOURCE_ROOT; };";
    py "/* End PBXFileReference section */";
    py "";
    py "/* Begin PBXGroup section */";
    tabs 2 ++ py "mainGroup = {";
    tabs 3 ++ py "isa = PBXGroup;";
    tabs 3 ++ py "children = (";
    tabs 4 ++ py "AA03 /* App */,";
    tabs 4 ++ py "AA04 /* Products */,";
    tabs 3 ++ py ");";
    tabs 3 ++ py "sourceTree = SOURCE_ROOT;";
    tabs 2 ++ py "};";
    py "/* End PBXGroup section */";
    py "";
    py "/* Begin PBXResourcesBuildPhase section */";
    tabs 2 ++ py "02DAD4482E70CC2D00BB3786 /* Resources */ = {";
    tabs 3 ++ py "isa = PBXResourcesBuildPhase;";
    tabs 3 ++ py "buildActionMask = 2147483647;";
    tabs 3 ++ py "files = (";
    tabs 3 ++ py ");";
    tabs 3 ++ py "runOnlyForDeploymentPostprocessing = 0;";
    tabs 2 ++ py "};";
    py "/* End PBXResourcesBuildPhase section */";
    tabs 1 ++ py "};";
    py "}";
    py ""
  ].

(** The same manifest with a second, empty group section. *)
Definition duplicated_marker_manifest : pystr :=
  join nl [
    py "// !$*UTF8*$!";
    py "{";
    tabs 1 ++ py "objects = {";
    py "";
    py "/* Begin PBXBuildFile section */";
    tabs 2 ++ py "AA01 /* App.swift in Sources */ = {isa = PBXBuildFile; fileRef = AA02 /* App.swift */; };";
    py "/* End PBXBuildFile section */";
    py "";
    py "/* Begin PBXFileReference section */";
    tabs 2 ++ py "AA02 /* App.swift */ = {isa = PBXFileReference; path = App.swift; sourceTree = SOURCE_ROOT; };";
    py "/* End PBXFileReference section */";
    py "";
    py "/* Begin PBXGroup section */";
    tabs 2 ++ py "mainGroup = {";
    tabs 3 ++ py "isa = PBXGroup;";
    tabs 3 ++ py "children = (";
    tabs 4 ++ py "AA03 /* App */,";
    tabs 4 ++ py "AA04 /* Products */,";
    tabs 3 ++ py ");";
    tabs 3 ++ py "sourceTree = SOURCE_ROOT;";
    tabs 2 ++ py "};";
    py "/* End PBXGroup section */";
    py "";
    py "/* Begin PBXGroup section */";
    py "/* End PBXGroup section */";
    py "";
    py "/* Begin PBXResourcesBuildPhase section */";
    tabs 2 ++ py "02DAD4482E70CC2D00BB3786 /* Resources */ = {";
    tabs 3 ++ py "isa = PBXResourcesBuildPhase;";
    tabs 3 ++ py "buildActionMask = 2147483647;";
    tabs 3 ++ py "files = (";
    tabs 3 ++ py ");";
    tabs 3 ++ py "runOnlyForDeploymentPostprocessing = 0;";
    tabs 2 ++ py "};";
    py "/* End PBXResourcesBuildPhase section */";
    tabs 1 ++ py "};";
    py "}";
    py ""
  ].

(** The same manifest with the root group keyed by an identifier, as Xcode writes it: [main_group_pattern] does not match. *)
Definition manifest_without_main_group : pystr :=
  join nl [
    py "// !$*UTF8*$!";
    py "{";
    tabs 1 ++ py "objects = {";
    py "";
    py "/* Begin PBXBuildFile section */";
    tabs 2 ++ py "AA01 /* App.swift in Sources */ = {isa = PBXBuildFile; fileRef = AA02 /* App.swift */; };";
    py "/* End PBXBuildFile section */";
    py "";
    py "/* Begin PBXFileReference section */";
    tabs 2 ++ py "AA02 /* App.swift */ = {isa = PBXFileReference; path = App.swift; sourceTree = SOURCE_ROOT; };";
    py "/* End PBXFileReference section */";
    py "";
    py "/* Begin PBXGroup section */";
    tabs 2 ++ py "AA00 = {";
    tabs 3 ++ py "isa = PBXGroup;";
    tabs 3 ++ py "children = (";
    tabs 4 ++ py "AA03 /* App */,";
    tabs 4 ++ py "AA04 /* Products */,";
    tabs 3 ++ py ");";
    tabs 3 ++ py "sourceTree = SOURCE_ROOT;";
    tabs 2 ++ py "};";
    py "/* End PBXGroup section */";
    py "";
    py "/* Begin PBXResourcesBuildPhase section */";
    tabs 2 ++ py "02DAD4482E70CC2D00BB3786 /* Resources */ = {";
    tabs 3 ++ py "isa = PBXResourcesBuildPhase;";
    tabs 3 ++ py "buildActionMask = 2147483647;";
    tabs 3 ++ py "files = (";
    tabs 3 ++ py ");";
    tabs 3 ++ py "runOnlyForDeploymentPostprocessing = 0;";
    tabs 2 ++ py "};";
    py "/* End PBXResourcesBuildPhase section */";
    tabs 1 ++ py "};";
    py "}";
    py ""
  ].

Definition sample_rng : rng :=
  Rng (fun n => N.of_nat n * 1234567890123456789012345678901234567
                + 98765432109876543210987654321098765432) 0.

Definition world_of (content : pystr) : world :=
  World {[ project_file := content ]} [] sample_rng.

(** ** More vocabulary *)

(** An upper-case hexadecimal digit: [0]..[9] or [A]..[F]. *)
Definition is_upper_hex (c : N) : bool :=
  ((48 <=? c) && (c <=? 57)) || ((65 <=? c) && (c <=? 70)).

(** The text a match stands for in the subject: what precedes it since
    the previous match, and its groups. *)
Definition match_text (m : pystr * list pystr) : pystr :=
  fst m ++ concat (snd m).

End PatcherSpec.

(* ===================================================================== *)
(** * The scanner wrapper: [Resources/semgrep_standalone.py] *)
(* ===================================================================== *)

Module Scanner.
Import Py.

(** The class of an exception, as far as the [except] clauses of the
    script tell classes apart: [subprocess.SubprocessError] (the time-out,
    which has a constructor of its own below, apart), [FileNotFoundError],
    and every other subclass of [Exception] ([PermissionError] and the
    other [OSError]s among them). *)
Inductive exn_class :=
| SubprocessError
| FileNotFoundError
| OtherException.

(** How a [subprocess.run] call ends; [msg] is [str(e)] of the exception
    raised. *)
Inductive run_outcome :=
| Returned (returncode : Z) (stdout stderr : pystr)
| TimeoutExpired
| Raised (cls : exn_class) (msg : pystr).

Inductive chdir_outcome :=
| Changed (dir : pystr)
| ChdirError (msg : pystr).

(** How a call of a function of the script ends: it returns a value, or
    an exception that nothing in the function catches leaves it. *)
Inductive completion (A : Type) :=
| Value (a : A)
| Escapes (cls : exn_class) (msg : pystr).

Arguments Value {A} a.
Arguments Escapes {A} cls msg.

(** The host the script runs on.  [chdir_to cwd p] is where [os.chdir(p)]
    leads from the working directory [cwd] (the name [os.getcwd()] then
    returns), or the error it raises; nothing is assumed about it, so the
    directory the script started in need not be there any more when the
    script wants to go back.  [subprocess_run cmd timeout cwd] is how the
    command ends when started in [cwd] with that timeout in seconds.
    [date_output n] is what [date] prints when it is the child process
    number [n] of the run, counted from 0: the script reads the clock more
    than once and the answers may differ. *)
Record env := Env {
  argv : list pystr;
  expanduser : pystr -> pystr;
  isfile : pystr -> bool;
  access_x_ok : pystr -> bool;
  path_exists : pystr -> bool;
  chdir_to : pystr -> pystr -> chdir_outcome;
  subprocess_run : list pystr -> N -> pystr -> run_outcome;
  date_output : nat -> pystr
}.

(** A child process started by the script. *)
Inductive call :=
| Run (cmd : list pystr) (timeout : N)
| Popen (cmd : pystr).

(** The state of the process: its working directory, the lines printed so
    far and the child processes started so far. *)
Record proc := Proc {
  cwd : pystr;
  stdout : list pystr;
  calls : list call
}.

Definition print (line : pystr) (st : proc) : proc :=
  Proc (cwd st) (stdout st ++ [line]) (calls st).

Definition log_call (c : call) (st : proc) : proc :=
  Proc (cwd st) (stdout st) (calls st ++ [c]).

Definition set_cwd (d : pystr) (st : proc) : proc :=
  Proc d (stdout st) (calls st).

(** [os.popen('date').read().strip()] *)
Definition popen_date (e : env) (st : proc) : pystr * proc :=
  (strip (date_output e (length (calls st))), log_call (Popen (py "date")) st).

(** The dictionary [run_semgrep_scan] returns.  A key that is absent is
    [None]; ['command'] is present on every path and holds [None] when no
    command was built. *)
Record result := Result {
  success : bool;
  error : option pystr;
  output : pystr;
  command : option pystr;
  return_code : option Z
}.

Definition possible_paths (e : env) : list pystr :=
  [ py "/opt/homebrew/bin/semgrep";
    py "/usr/local/bin/semgrep";
    expanduser e (py "~/.local/bin/semgrep");
    py "/usr/bin/semgrep" ].

(** [os.path.isfile(path) and os.access(path, os.X_OK)] *)
Definition is_executable_file (e : env) (path : pystr) : bool :=
  isfile e path && access_x_ok e path.

Definition which_cmd : list pystr := [py "which"; py "semgrep"].

(** [find_system_semgrep()].  The [except] clause of the lookup names
    [TimeoutExpired], [SubprocessError] and [FileNotFoundError]; an
    exception of another class leaves the function. *)
Definition find_system_semgrep (e : env) (st : proc)
  : completion (option pystr) * proc :=
  match List.find (is_executable_file e) (possible_paths e) with
  | Some path => (Value (Some path), st)
  | None =>
      let st := log_call (Run which_cmd 5) st in
      (* try: *)
      match subprocess_run e which_cmd 5 (cwd st) with
      | Returned returncode out _ =>
          match returncode, strip out with
          | 0%Z, (_ :: _) as semgrep_path =>
              if is_executable_file e semgrep_path
              then (Value (Some semgrep_path), st)
              else (Value None, st)
          | _, _ => (Value None, st)
          end
      (* except (subprocess.TimeoutExpired, subprocess.SubprocessError,
                 FileNotFoundError): pass *)
      | TimeoutExpired
      | Raised SubprocessError _
      | Raised FileNotFoundError _ => (Value None, st)
      | Raised OtherException msg => (Escapes OtherException msg, st)
      end
  end.

(** The text of [get_installation_instructions()] below the two lines that
    are filled in: the instructions proper. *)
Definition instructions_lines : list pystr :=
  [
    py "";
    py "To use Semgrep security scanning, please install Semgrep on your system:";
    py "";
    py "Option 1 - Using pip:";
    py "  pip install semgrep";
    py "";
    py "Option 2 - Using Homebrew:";
    py "  brew install semgrep";
    py "";
    py "Option 3 - Using conda:";
    py "  conda install -c conda-forge semgrep";
    py "";
    py "After installation, you can run security scans on your iOS projects.";
    py "";
    py "For more information, visit: https://semgrep.dev/docs/getting-started/";
    py "";
    py "Note: This app provides a convenient interface for Semgrep scanning.";
    py "      The actual security analysis is performed by Semgrep itself.";
    py "";
    py "To run a comprehensive security scan manually, use:";
    py "  # JSON output for programmatic processing:";
    py "  semgrep scan --config p/swift --config p/owasp-top-ten --config p/secrets --json --verbose . > semgrep_results.json";
    py "";
    py "  # Human-readable output:";
    py "  semgrep scan --config p/swift --config p/owasp-top-ten --config p/secrets --verbose . > semgrep_results.txt";
    py "";
    py "  # This will scan all files in the current directory with:";
    py "    - Swift-specific security rules";
    py "    - OWASP Top 10 security vulnerabilities";
    py "    - Secret detection (API keys, passwords, etc.)";
    py "    - Git-tracked files only (recommended for performance)";
    py "";
    (10060 :: py " Semgrep not found or not executable.");
    py "Please install Semgrep or ensure it's in your PATH."
  ].

(** [get_installation_instructions()]: the template with [{date}] and
    [{project_path}] filled in. *)
Definition installation_text (date project_path : pystr) : pystr :=
  nl ++ join nl ([
    (128269 :: py " Semgrep Security Scanner Analysis Report");
    py "==========================================";
    py "";
    (py "Generated on: " ++ date);
    (py "Project directory: " ++ project_path)
  ] ++ instructions_lines) ++ nl.

Definition get_installation_instructions (e : env) (st : proc) : pystr * proc :=
  let '(date, st) := popen_date e st in
  let project_path :=
    match argv e with
    | _ :: p :: _ => p          (* sys.argv[1] if len(sys.argv) > 1 *)
    | _ => cwd st               (* else os.getcwd() *)
    end in
  (installation_text date project_path, st).

Definition default_configs : list pystr :=
  [py "p/swift"; py "p/owasp-top-ten"; py "p/secrets"].

(** The command line built by [run_semgrep_scan]. *)
Definition scan_cmd (semgrep_path : pystr) (configs : list pystr)
    (project_path : pystr) : list pystr :=
  [semgrep_path; py "scan"]
  ++ map (fun config => py "--config=" ++ config) configs
  ++ [py "--json"; py "--verbose"; project_path].

Definition timeout_result (cmd : list pystr) : result :=
  Result false (Some (py "Scan timed out"))
    (py "Semgrep scan timed out after 5 minutes")
    (Some (join (py " ") cmd)) None.

Definition fault_result (msg : pystr) (cmd : list pystr) : result :=
  Result false (Some msg) (py "Error running Semgrep: " ++ msg)
    (Some (join (py " ") cmd)) None.

(** [configs], or the default when the argument is [None]. *)
Definition configs_or_default (configs : option (list pystr)) : list pystr :=
  match configs with
  | None => default_configs
  | Some configs => configs
  end.

(** [run_semgrep_scan(project_path, configs=None)].  The call of
    [find_system_semgrep] stands before the [try]: an exception that
    leaves it leaves [run_semgrep_scan] too.  Inside the [try], the
    time-out has a clause of its own and [except Exception] catches the
    rest, the error of either [os.chdir] included. *)
Definition run_semgrep_scan (e : env) (project_path : pystr)
    (configs : option (list pystr)) (st : proc) : completion result * proc :=
  let configs := configs_or_default configs in
  let '(located, st) := find_system_semgrep e st in
  match located with
  | Escapes cls msg => (Escapes cls msg, st)
  | Value None | Value (Some []) =>
      let '(text, st) := get_installation_instructions e st in
      (Value (Result false (Some (py "Semgrep not found")) text None None), st)
  | Value (Some semgrep_path) =>
      let cmd := scan_cmd semgrep_path configs project_path in
      (* try: *)
      let original_cwd := cwd st in
      match chdir_to e (cwd st) project_path with
      | ChdirError msg => (Value (fault_result msg cmd), st)
      | Changed dir =>
          let st := set_cwd dir st in
          let st := log_call (Run cmd 300) st in
          match subprocess_run e cmd 300 (cwd st) with
          | Returned returncode out err =>
              match chdir_to e (cwd st) original_cwd with
              | ChdirError msg => (Value (fault_result msg cmd), st)
              | Changed dir' =>
                  (Value (Result (returncode =? 0)%Z None (out ++ err)
                            (Some (join (py " ") cmd)) (Some returncode)),
                   set_cwd dir' st)
              end
          (* except subprocess.TimeoutExpired: *)
          | TimeoutExpired => (Value (timeout_result cmd), st)
          (* except Exception as e: *)
          | Raised _ msg => (Value (fault_result msg cmd), st)
          end
      end
  end.

Definition results_marker : pystr := dq ++ py "results" ++ dq ++ py ": [".

Definition msg_issues_found : pystr := [9888; 65039] ++ py " Security issues found!".
Definition msg_no_issues : pystr := 127881 :: py " No security issues found!".

(** The truth value of [result['command']]. *)
Definition truthy (o : option pystr) : bool :=
  match o with
  | Some (_ :: _) => true
  | _ => false
  end.

(** [main()]: the status it exits with ([sys.exit(1)], or 0 when it
    returns), or the exception that leaves it, and the final state. *)
Definition main (e : env) (st : proc) : completion Z * proc :=
  match argv e with
  | _ :: project_path :: _ =>
      if negb (path_exists e project_path) then
        (Value 1%Z,
         print (10060 :: py " Project path does not exist: " ++ project_path) st)
      else
        let st := print (128269 :: py " Running Semgrep Security Scan") st in
        let st := print (py "================================") st in
        let st := print [] st in
        let st := print (py "Project: " ++ project_path) st in
        let '(date, st) := popen_date e st in
        let st := print (py "Generated: " ++ date) st in
        let st := print [] st in
        let st := print (128203 :: py " Command Output:") st in
        let st := print (py "-----------------") st in
        let '(scan, st) := run_semgrep_scan e project_path None st in
        match scan with
        | Escapes cls msg => (Escapes cls msg, st)
        | Value res =>
            let st :=
              if truthy (command res)
              then print [] (print (py "Command: " ++ match command res with
                                                      | Some c => c
                                                      | None => []
                                                      end) st)
              else st in
            let st := print (output res) st in
            let st :=
              if success res then
                let st := print [] st in
                let st := print (9989 :: py " Scan completed successfully") st in
                if contains results_marker (output res)
                then print msg_issues_found st
                else print msg_no_issues st
              else
                let st := print [] st in
                let st := print (10060 :: py " Scan failed or found issues") st in
                match error res with
                | Some err =>
                    if bool_decide (err = py "Semgrep not found") then
                      print (py "Please install Semgrep using one of the methods shown above.")
                        (print (py "Reason: Semgrep is not installed or not in PATH") st)
                    else st
                | None => st
                end in
            let st := print [] st in
            let st := print (py "==================================================") st in
            let st := print (py "End of Semgrep Scan Report") st in
            let st := print (py "==================================================") st in
            (Value 0%Z, st)
        end
  | _ =>
      (Value 1%Z,
       print (py "Usage: python3 semgrep_standalone.py <project_path>") st)
  end.

(** The script run as a program ([if __name__ == "__main__": main()]):
    the exit status of the process.  When an exception leaves [main] the
    interpreter prints the traceback on the standard error and the process
    ends with status 1. *)
Definition exit_status (ended : completion Z) : Z :=
  match ended with
  | Value status => status
  | Escapes _ _ => 1%Z
  end.

End Scanner.

(* ===================================================================== *)
(** * The scanner wrapper: the vocabulary of its properties *)
(* ===================================================================== *)

Module ScannerSpec.
Import Py Scanner.

(** No candidate path is an executable file. *)
Definition no_candidate (e : env) : Prop :=
  Forall (fun path => is_executable_file e path = false) (possible_paths e).


(** The lookup is run, in [dir], and raises an exception of another
    class, with the text [msg]. *)
Definition lookup_escapes (e : env) (dir msg : pystr) : Prop :=
  no_candidate e /\
  subprocess_run e which_cmd 5 dir = Raised OtherException msg.

(** What [os.popen('date').read().strip()] gives in the state [st]. *)
Definition date_at (e : env) (st : proc) : pystr :=
  strip (date_output e (length (calls st))).

(** The same, [k] child processes later. *)
Definition date_after (k : nat) (e : env) (st : proc) : pystr :=
  strip (date_output e (length (calls st) + k)).



(** ** Sample hosts *)

(** The clock of the sample hosts: it advances by a second from one child
    process to the next. *)
Definition sample_date (n : nat) : pystr :=
  py "Tue Nov  3 13:49:0" ++ [48 + N.of_nat (n mod 10)] ++ py " UTC 2026" ++ nl.

(** A host on which exactly the paths [executables] are executable files
    and the paths [existing] exist, every directory name is absolute and
    can be entered, and child processes end as [run] says. *)
Definition host (args executables existing : list pystr)
    (run : list pystr -> N -> pystr -> run_outcome) : env :=
  Env args (fun p => p)
    (fun p => existsb (fun q => bool_decide (p = q)) executables)
    (fun p => existsb (fun q => bool_decide (p = q)) executables)
    (fun p => existsb (fun q => bool_decide (p = q)) existing)
    (fun _ p => Changed p) run sample_date.

Definition homebrew_semgrep : pystr := py "/opt/homebrew/bin/semgrep".

Definition script_args : list pystr :=
  [py "semgrep_standalone.py"; py "/proj"].

(** The scan runs out of time. *)
Definition timeout_host : env :=
  host script_args [homebrew_semgrep] [py "/proj"]
    (fun _ _ _ => TimeoutExpired).

(** The scan ends with status 0 and prints [out]. *)
Definition clean_host (out : pystr) : env :=
  host script_args [homebrew_semgrep] [py "/proj"]
    (fun _ _ _ => Returned 0 out []).

(** Semgrep is not installed, and [which] says so. *)
Definition bare_host : env :=
  host script_args [] [py "/proj"] (fun _ _ _ => Returned 1 [] []).

Definition start : proc := Proc (py "/home/user") [] [].

(** Semgrep is not installed and [which] cannot be started:
    [subprocess.run] raises [PermissionError]. *)
Definition permission_denied : pystr := py "[Errno 13] Permission denied: 'which'".

Definition denied_host : env :=
  host script_args [] [py "/proj"]
    (fun _ _ _ => Raised OtherException permission_denied).



(** ** The report of [main] *)

(** The lines [main] prints before it runs the scan. *)
Definition report_head (date project_path : pystr) : list pystr :=
  [ 128269 :: py " Running Semgrep Security Scan";
    py "================================";
    [];
    py "Project: " ++ project_path;
    py "Generated: " ++ date;
    [];
    128203 :: py " Command Output:";
    py "-----------------" ].

(** The lines [main] prints last. *)
Definition report_trailer : list pystr :=
  [ [];
    py "==================================================";
    py "End of Semgrep Scan Report";
    py "==================================================" ].

Definition msg_scan_failed : pystr := 10060 :: py " Scan failed or found issues".
Definition msg_scan_completed : pystr := 9989 :: py " Scan completed successfully".

(** The lines [main] prints between those, for the result [res] of
    [run_semgrep_scan]. *)
Definition report_body (res : result) : list pystr :=
  (if truthy (command res)
   then [py "Command: " ++ match command res with Some c => c | None => [] end; []]
   else [])
  ++ [output res]
  ++ (if success res then
        [ []; msg_scan_completed;
          if contains results_marker (output res)
          then msg_issues_found else msg_no_issues ]
      else
        [ []; msg_scan_failed ]
        ++ match error res with
           | Some err =>
               if bool_decide (err = py "Semgrep not found") then
                 [ py "Reason: Semgrep is not installed or not in PATH";
                   py "Please install Semgrep using one of the methods shown above." ]
               else []
           | None => []
           end).

(** The state in which [main] calls [run_semgrep_scan], as far as the
    scan depends on it: [date] has been started once more. *)
Definition at_scan (st : proc) : proc := log_call (Popen (py "date")) st.

(** The result of [run_semgrep_scan] when no executable is located and
    the installation text is made in the state [st]. *)
Definition not_found_result (e : env) (st : proc) : result :=
  Result false (Some (py "Semgrep not found"))
    (installation_text (date_at e st)
       (match argv e with _ :: p :: _ => p | _ => cwd st end))
    None None.


(** ** More sample hosts *)

(** [os.chdir] fails: the project path is not a directory. *)
Definition stuck_host : env :=
  Env script_args (fun p => p)
    (fun p => bool_decide (p = homebrew_semgrep))
    (fun p => bool_decide (p = homebrew_semgrep))
    (fun _ => true)
    (fun _ _ => ChdirError (py "[Errno 20] Not a directory: '/proj'"))
    (fun _ _ _ => Returned 0 [] [])
    sample_date.

(** Starting the scan raises. *)
Definition raising_host : env :=
  host script_args [homebrew_semgrep] [py "/proj"]
    (fun _ _ _ => Raised OtherException (py "[Errno 8] Exec format error")).

(** The scan ends with the status [returncode] and prints [out]. *)
Definition exit_host (returncode : Z) (out : pystr) : env :=
  host script_args [homebrew_semgrep] [py "/proj"]
    (fun _ _ _ => Returned returncode out []).

(** Semgrep is installed outside the candidate paths and [which] finds
    it. *)
Definition snap_semgrep : pystr := py "/snap/bin/semgrep".

Definition snap_host : env :=
  host script_args [snap_semgrep] [py "/proj"]
    (fun _ _ _ => Returned 0 (snap_semgrep ++ nl) []).

(** Two of the candidate paths are executable files. *)
Definition two_candidates_host : env :=
  host script_args [py "/usr/bin/semgrep"; py "/usr/local/bin/semgrep"]
    [py "/proj"] (fun _ _ _ => Returned 0 [] []).

(** The script is started without an argument. *)
Definition no_argument_host : env :=
  host [py "semgrep_standalone.py"] [homebrew_semgrep] []
    (fun _ _ _ => Returned 0 [] []).

End ScannerSpec.

(* ===================================================================== *)
(** * Facts about the string primitives *)
(* ===================================================================== *)

Module PyFacts.
Import Py.

Lemma strip_prefix_Some p s r : strip_prefix p s = Some r <-> s = p ++ r.
Proof.
  revert s; induction p as [|a p IH]; intros s; simpl.
  - split; [intros [= ->]; reflexivity | intros ->; reflexivity].
  - destruct s as [|b s]; [split; discriminate|].
    destruct (N.eqb_spec a b) as [->|Hne].
    + rewrite IH. split; [intros ->; reflexivity | intros [= ->]; reflexivity].
    + split; [discriminate | intros [= -> _]; contradiction].
Qed.

Lemma strip_prefix_app p r : strip_prefix p (p ++ r) = Some r.
Proof. apply strip_prefix_Some; reflexivity. Qed.

Lemma find_sub_Some sep s a b :
  find_sub sep s = Some (a, b) -> s = a ++ sep ++ b.
Proof.
  revert a b; induction s as [|c s IH]; intros a b; simpl.
  - destruct (strip_prefix sep []) eqn:E; [|discriminate].
    intros [= <- <-]. apply strip_prefix_Some in E. exact E.
  - destruct (strip_prefix sep (c :: s)) eqn:E.
    + intros [= <- <-]. apply strip_prefix_Some in E. exact E.
    + destruct (find_sub sep s) as [[a' b']|] eqn:F; [|discriminate].
      intros [= <- <-]. simpl. f_equal. apply IH. reflexivity.
Qed.

Lemma find_sub_app a sep b : find_sub sep (a ++ sep ++ b) <> None.
Proof.
  induction a as [|c a IH]; simpl.
  - destruct (sep ++ b) eqn:E; simpl;
      rewrite <- E, strip_prefix_app; discriminate.
  - destruct (strip_prefix sep (c :: a ++ sep ++ b)); [discriminate|].
    destruct (find_sub sep (a ++ sep ++ b)) as [[? ?]|]; [discriminate|].
    exact IH.
Qed.

(** [needle in hay] holds exactly when [hay] has [needle] as a substring. *)
Lemma contains_spec needle hay :
  contains needle hay = true <-> exists a b, hay = a ++ needle ++ b.
Proof.
  unfold contains. split.
  - destruct (find_sub needle hay) as [[a b]|] eqn:E; [|discriminate].
    intros _. exists a, b. apply find_sub_Some, E.
  - intros (a & b & ->).
    pose proof (find_sub_app a needle b) as H.
    destruct (find_sub needle (a ++ needle ++ b)); [reflexivity | contradiction].
Qed.

Lemma contains_app_r needle a b :
  contains needle b = true -> contains needle (a ++ b) = true.
Proof.
  rewrite !contains_spec. intros (x & y & ->).
  exists (a ++ x), y. rewrite <- app_assoc. reflexivity.
Qed.

(** The text before the leftmost occurrence of [sep] does not contain
    [sep]. *)
Lemma find_sub_first sep s a b :
  sep <> [] -> find_sub sep s = Some (a, b) -> find_sub sep a = None.
Proof.
  intros Hsep. revert a b; induction s as [|c s IH]; intros a b; simpl.
  - destruct (strip_prefix sep []) eqn:E; [|discriminate].
    intros [= <- <-]. destruct sep; [contradiction | reflexivity].
  - destruct (strip_prefix sep (c :: s)) eqn:E.
    + intros [= <- <-]. destruct sep; [contradiction | reflexivity].
    + destruct (find_sub sep s) as [[a' b']|] eqn:F; [|discriminate].
      intros [= <- <-]. simpl.
      destruct (strip_prefix sep (c :: a')) as [r|] eqn:E'.
      * apply strip_prefix_Some in E'.
        apply find_sub_Some in F. subst s.
        assert (strip_prefix sep (c :: a' ++ sep ++ b') = Some (r ++ sep ++ b')) as E2.
        { apply strip_prefix_Some. rewrite app_comm_cons, E', <- app_assoc.
          reflexivity. }
        rewrite E2 in E. discriminate.
      * rewrite (IH a' b' eq_refl). reflexivity.
Qed.

Lemma split_loop_nonempty n sep s : split_loop n sep s <> [].
Proof.
  destruct n; simpl; [discriminate|].
  destruct (find_sub sep s) as [[a b]|]; discriminate.
Qed.

Lemma join_cons sep x l : l <> [] -> join sep (x :: l) = x ++ sep ++ join sep l.
Proof. destruct l; [contradiction | reflexivity]. Qed.

(** Joining what [split] returns gives the text back. *)
Lemma join_split_loop n sep s : join sep (split_loop n sep s) = s.
Proof.
  revert s; induction n as [|n IH]; intros s; simpl; [reflexivity|].
  destruct (find_sub sep s) as [[a b]|] eqn:E; [|reflexivity].
  rewrite join_cons by apply split_loop_nonempty.
  rewrite IH. symmetry. apply find_sub_Some, E.
Qed.

Lemma join_split sep s : join sep (split sep s) = s.
Proof. apply join_split_loop. Qed.

Lemma join_snoc sep l e : l <> [] -> join sep (l ++ [e]) = join sep l ++ sep ++ e.
Proof.
  induction l as [|x l IH]; [contradiction|]. intros _.
  destruct l as [|y l]; [reflexivity|].
  change ((x :: y :: l) ++ [e]) with (x :: y :: (l ++ [e])).
  change (join sep (x :: y :: (l ++ [e])))
    with (x ++ sep ++ join sep ((y :: l) ++ [e])).
  rewrite IH by (intros ?; discriminate).
  change (join sep (x :: y :: l)) with (x ++ sep ++ join sep (y :: l)).
  rewrite <- !app_assoc. reflexivity.
Qed.

(** Appending a line to the lines of a text and joining them again appends
    the line after a line feed. *)
Lemma join_split_snoc sep s e :
  join sep (split sep s ++ [e]) = s ++ sep ++ e.
Proof.
  rewrite join_snoc by apply split_loop_nonempty.
  rewrite join_split. reflexivity.
Qed.

(** The rounds of [split] never run out. *)
Lemma split_loop_fuel sep n m s :
  sep <> [] -> (length s <= n)%nat -> (length s <= m)%nat ->
  split_loop n sep s = split_loop m sep s.
Proof.
  intros Hsep. revert m s; induction n as [|n IH]; intros m s Hn Hm.
  - destruct s; [|simpl in Hn; lia].
    destruct m; simpl; [reflexivity|].
    destruct sep; [contradiction | reflexivity].
  - destruct m as [|m].
    + destruct s; [|simpl in Hm; lia]. simpl.
      destruct sep; [contradiction | reflexivity].
    + simpl. destruct (find_sub sep s) as [[a b]|] eqn:E; [|reflexivity].
      f_equal. apply find_sub_Some in E. subst s.
      rewrite !length_app in Hn, Hm.
      assert (length sep <> 0)%nat by (destruct sep; [contradiction | simpl; lia]).
      apply IH; lia.
Qed.

(** The second part of a text split at [sep] does not contain [sep]. *)
Lemma split_second_no_sep sep s :
  sep <> [] -> contains sep (nth 1 (split sep s) []) = false.
Proof.
  intros Hsep. unfold split, contains.
  assert (Hnil : find_sub sep [] = None).
  { destruct sep; [contradiction | reflexivity]. }
  destruct (length s) as [|n] eqn:Hlen; cbn [split_loop nth].
  - rewrite Hnil. reflexivity.
  - destruct (find_sub sep s) as [[a b]|] eqn:E; cbn [nth].
    2: { rewrite Hnil. reflexivity. }
    pose proof (find_sub_Some _ _ _ _ E) as Hs.
    assert (length b <= n)%nat as Hb.
    { subst s. rewrite !length_app in Hlen.
      destruct sep; [contradiction | simpl in Hlen; lia]. }
    rewrite (split_loop_fuel sep n (S n) b) by (auto; lia).
    cbn [split_loop].
    destruct (find_sub sep b) as [[a' b']|] eqn:F; cbn [nth].
    + rewrite (find_sub_first sep b a' b' Hsep F). reflexivity.
    + rewrite F. reflexivity.
Qed.

Example split_keeps_empty_parts :
  split nl (py "a" ++ nl ++ nl ++ py "b" ++ nl) = [py "a"; []; py "b"; []].
Proof. vm_compute. reflexivity. Qed.

Example split_two_characters :
  split (py "/*") (py "x /* y */ /* z") = [py "x "; py " y */ "; py " z"].
Proof. vm_compute. reflexivity. Qed.

Example strip_date :
  strip (py "Tue Nov  3 13:49:00 UTC 2026" ++ nl)
  = py "Tue Nov  3 13:49:00 UTC 2026".
Proof. vm_compute. reflexivity. Qed.

End PyFacts.

(* ===================================================================== *)
(** * Facts about the matcher and [re.sub] *)
(* ===================================================================== *)

Module ReFacts.
Import Py PyFacts.

Section MatcherFacts.
Context {R : Type} (tot : R -> pystr).

Lemma match_plus_nil c (k : pystr -> option (pystr * R)) :
  match_plus c k [] = None.
Proof. reflexivity. Qed.

Lemma match_plus_cons c (k : pystr -> option (pystr * R)) x s :
  match_plus c k (x :: s) =
  if in_class c x then
    match match_plus c k s with
    | Some (m, r) => Some (x :: m, r)
    | None =>
        match k s with
        | Some (m, r) => Some (x :: m, r)
        | None => None
        end
    end
  else None.
Proof. reflexivity. Qed.

(** What a match consumes, followed by what is left, is the text. *)
Lemma match_plus_sound c (k : pystr -> option (pystr * R)) :
  (forall s m r, k s = Some (m, r) -> s = m ++ tot r) ->
  forall s m r, match_plus c k s = Some (m, r) -> s = m ++ tot r.
Proof.
  intros Hk s. induction s as [|x s IH]; intros m r.
  - rewrite match_plus_nil. discriminate.
  - rewrite match_plus_cons.
    destruct (in_class c x); [|discriminate].
    destruct (match_plus c k s) as [[m' r']|] eqn:E.
    + intros [= <- <-]. simpl. f_equal. apply IH. reflexivity.
    + destruct (k s) as [[m' r']|] eqn:E2; [|discriminate].
      intros [= <- <-]. simpl. f_equal. apply Hk, E2.
Qed.

Lemma match_items_sound its (k : pystr -> option R) :
  (forall s r, k s = Some r -> s = tot r) ->
  forall s m r, match_items its k s = Some (m, r) -> s = m ++ tot r.
Proof.
  intros Hk. induction its as [|[l|c] its IH]; intros s m r; simpl.
  - destruct (k s) as [r'|] eqn:E; [|discriminate].
    intros [= <- <-]. simpl. apply Hk, E.
  - destruct (strip_prefix l s) as [s'|] eqn:E; [|discriminate].
    destruct (match_items its k s') as [[m' r']|] eqn:E2; [|discriminate].
    intros [= <- <-]. apply strip_prefix_Some in E. subst s.
    rewrite <- app_assoc. f_equal. apply IH, E2.
  - apply match_plus_sound. exact IH.
Qed.

End MatcherFacts.

Lemma match_groups_sound re s gs rest :
  match_groups re s = Some (gs, rest) -> s = concat gs ++ rest.
Proof.
  revert s gs rest; induction re as [|g re IH]; intros s gs rest; simpl.
  - intros [= <- <-]. reflexivity.
  - destruct (match_items g (match_groups re) s) as [[m [ms rest']]|] eqn:E;
      [|discriminate].
    intros [= <- <-].
    apply (match_items_sound (fun r => concat (fst r) ++ snd r)) in E.
    + subst s. simpl. rewrite <- app_assoc. reflexivity.
    + intros s' [ms' r'] H. apply IH in H. exact H.
Qed.

Lemma match_groups_length re s gs rest :
  match_groups re s = Some (gs, rest) -> length gs = length re.
Proof.
  revert s gs rest; induction re as [|g re IH]; intros s gs rest; simpl.
  - intros [= <- <-]. reflexivity.
  - destruct (match_items g (match_groups re) s) as [[m [ms rest']]|] eqn:E;
      [|discriminate].
    intros [= <- <-]. simpl. f_equal.
    assert (forall its s m r,
               match_items its (match_groups re) s = Some (m, r) ->
               exists s', match_groups re s' = Some r) as Hk.
    { clear. induction its as [|[l|c] its IH]; intros s m r; simpl.
      - destruct (match_groups re s) eqn:E; [|discriminate].
        intros [= <- <-]. eauto.
      - destruct (strip_prefix l s) as [s'|]; [|discriminate].
        destruct (match_items its (match_groups re) s') as [[m' r']|] eqn:E2;
          [|discriminate].
        intros [= <- <-]. eapply IH, E2.
      - revert m r. induction s as [|x s IHs]; intros m r.
        + rewrite match_plus_nil. discriminate.
        + rewrite match_plus_cons.
          destruct (in_class c x); [|discriminate].
          destruct (match_plus c _ s) as [[m' r']|] eqn:E.
          * intros [= <- <-]. eapply IHs. reflexivity.
          * destruct (match_items its (match_groups re) s) as [[m' r']|] eqn:E2;
              [|discriminate].
            intros [= <- <-]. eapply IH, E2. }
    destruct (Hk _ _ _ _ E) as [s' Hs']. eapply IH, Hs'.
Qed.

(** A pattern of one literal matches exactly that literal. *)
Lemma match_groups_lit l s gs rest :
  match_groups [[Lit l]] s = Some (gs, rest) -> gs = [l] /\ s = l ++ rest.
Proof.
  simpl. destruct (strip_prefix l s) as [s'|] eqn:E; [|discriminate].
  intros [= <- <-]. apply strip_prefix_Some in E.
  rewrite app_nil_r. split; [reflexivity | exact E].
Qed.

(** [re.search]: the text is what precedes the match, the match, and what
    follows it, and the match is a match of the pattern where it starts. *)
Lemma re_search_Some re s pre gs rest :
  re_search re s = Some (pre, gs, rest) ->
  s = pre ++ concat gs ++ rest /\
  match_groups re (concat gs ++ rest) = Some (gs, rest).
Proof.
  revert pre; induction s as [|c s IH]; intros pre; simpl.
  - destruct (match_groups re []) as [[gs' rest']|] eqn:E; [|discriminate].
    intros [= <- <- <-]. pose proof (match_groups_sound _ _ _ _ E) as H.
    simpl. rewrite <- H. split; [reflexivity | exact E].
  - destruct (match_groups re (c :: s)) as [[gs' rest']|] eqn:E.
    + intros [= <- <- <-]. pose proof (match_groups_sound _ _ _ _ E) as H.
      simpl. rewrite <- H. split; [reflexivity | exact E].
    + destruct (re_search re s) as [[[pre' gs'] rest']|] eqn:F; [|discriminate].
      intros [= <- <- <-]. destruct (IH pre' eq_refl) as [H1 H2].
      split; [simpl; f_equal; exact H1 | exact H2].
Qed.

(** ** [re.finditer] and [re.sub] *)

Lemma finditer_loop_nil n re s tail :
  finditer_loop n re s = ([], tail) -> tail = s.
Proof.
  destruct n; simpl; [intros [= <-]; reflexivity|].
  destruct (re_search re s) as [[[pre gs] rest]|]; [|intros [= <-]; reflexivity].
  destruct (finditer_loop n re rest). discriminate.
Qed.

(** No match: [re.sub] returns the text unchanged. *)
Lemma re_finditer_no_match re s :
  re_search re s = None -> re_finditer re s = ([], s).
Proof.
  intros H. unfold re_finditer. destruct (length s); simpl; [reflexivity|].
  rewrite H. reflexivity.
Qed.

Lemma re_sub_with_no_match {S} re (f : list pystr -> S -> pystr * S) s st :
  re_search re s = None -> re_sub_with re f s st = (s, st).
Proof.
  intros H. unfold re_sub_with. rewrite (re_finditer_no_match _ _ H).
  reflexivity.
Qed.

Lemma re_sub_no_match re repl s :
  re_search re s = None -> re_sub re repl s = s.
Proof.
  intros H. unfold re_sub. rewrite (re_sub_with_no_match _ _ _ _ H).
  reflexivity.
Qed.

(** Exactly one match: the text splits around it. *)
Lemma match_count_one re s :
  match_count re s = 1%nat ->
  exists pre gs rest,
    re_finditer re s = ([(pre, gs)], rest) /\
    s = pre ++ concat gs ++ rest /\
    match_groups re (concat gs ++ rest) = Some (gs, rest).
Proof.
  unfold match_count, re_finditer.
  destruct (length s) as [|n]; simpl; [discriminate|].
  destruct (re_search re s) as [[[pre gs] rest]|] eqn:E; [|discriminate].
  destruct (finditer_loop n re rest) as [ms tail] eqn:F. simpl.
  destruct ms as [|? ms]; [|discriminate]. intros _.
  apply finditer_loop_nil in F. subst tail.
  apply re_search_Some in E. destruct E as [E1 E2].
  exists pre, gs, rest. auto.
Qed.

Lemma re_sub_with_one {S} re (f : list pystr -> S -> pystr * S) s st pre gs rest :
  re_finditer re s = ([(pre, gs)], rest) ->
  re_sub_with re f s st = (pre ++ fst (f gs st) ++ rest, snd (f gs st)).
Proof.
  intros H. unfold re_sub_with. rewrite H. simpl.
  destruct (f gs st) as [r st']. simpl.
  rewrite app_nil_r, <- app_assoc. reflexivity.
Qed.

Lemma re_sub_one re repl s pre gs rest :
  re_finditer re s = ([(pre, gs)], rest) ->
  re_sub re repl s = pre ++ repl ++ rest.
Proof.
  intros H. unfold re_sub. rewrite (re_sub_with_one _ _ _ _ _ _ _ H).
  reflexivity.
Qed.

(** Every match [re.finditer] returns has one text per group. *)
Lemma finditer_loop_groups n re s :
  Forall (fun m => length (snd m) = length re) (fst (finditer_loop n re s)).
Proof.
  revert s; induction n as [|n IH]; intros s; cbn [finditer_loop].
  - constructor.
  - destruct (re_search re s) as [[[pre gs] rest]|] eqn:E; [|constructor].
    specialize (IH rest). destruct (finditer_loop n re rest) as [ms tail].
    cbn [fst] in *. constructor; [|exact IH].
    apply re_search_Some in E. destruct E as [_ E].
    cbn [snd]. eapply match_groups_length, E.
Qed.

End ReFacts.

Module ReFuel.
Import Py PyFacts ReFacts.

Lemma re_search_shorter re s pre gs rest :
  productive re -> re_search re s = Some (pre, gs, rest) ->
  (length rest < length s)%nat.
Proof.
  intros Hp H. apply re_search_Some in H. destruct H as [H1 H2].
  apply Hp in H2. subst s. rewrite !length_app in *. lia.
Qed.

(** For a productive pattern the rounds of [re.finditer] never run out:
    any number of rounds from the length of the text on finds the same
    matches. *)
Lemma finditer_loop_fuel re n m s :
  productive re -> (length s <= n)%nat -> (length s <= m)%nat ->
  finditer_loop n re s = finditer_loop m re s.
Proof.
  intros Hp.
  assert (Hnil : forall k, finditer_loop k re [] = ([], [])).
  { intros [|k]; cbn [finditer_loop]; [reflexivity|].
    destruct (re_search re []) as [[[pre gs] rest]|] eqn:E; [|reflexivity].
    apply (re_search_shorter _ _ _ _ _ Hp) in E. simpl in E. lia. }
  revert m s; induction n as [|n IH]; intros m s Hn Hm.
  - destruct s; [|simpl in Hn; lia]. rewrite !Hnil. reflexivity.
  - destruct m as [|m].
    + destruct s; [|simpl in Hm; lia]. rewrite !Hnil. reflexivity.
    + cbn [finditer_loop].
      destruct (re_search re s) as [[[pre gs] rest]|] eqn:E; [|reflexivity].
      apply (re_search_shorter _ _ _ _ _ Hp) in E.
      rewrite (IH m rest) by lia. reflexivity.
Qed.

(** A pattern whose first group starts with a non-empty literal is
    productive. *)
Lemma productive_lit c l its re :
  productive ((Lit (c :: l) :: its) :: re).
Proof.
  intros s gs rest H.
  pose proof (match_groups_sound _ _ _ _ H) as Hs.
  simpl in H.
  destruct s as [|b s]; [discriminate|].
  destruct (c =? b); [|discriminate].
  destruct (strip_prefix l s) as [s'|]; [|discriminate].
  destruct (match_items its (match_groups re) s') as [[m [ms rest']]|];
    [|discriminate].
  injection H as <- <-.
  rewrite Hs. simpl. rewrite !length_app. lia.
Qed.

(** The five patterns of the patcher are productive. *)
Lemma patcher_patterns_productive :
  Forall productive
    [ Patcher.main_group_pattern; [[Lit Patcher.end_group_marker]];
      [[Lit Patcher.end_file_reference_marker]];
      Patcher.resources_build_phase_pattern;
      [[Lit Patcher.end_build_file_marker]] ].
Proof. repeat constructor; apply productive_lit. Qed.

(** Examples of the matcher: a repetition is greedy, gives characters
    back when the rest of the pattern fails, and the leftmost match wins;
    [re.finditer] goes on after the end of a match. *)
Example greedy_takes_the_last_closing :
  re_search [[Lit (py "(")]; [Plus NotBrace]; [Plus Space; Lit (py ");")]]
    (py "f( a ); b ); c }")
  = Some (py "f", [py "("; py " a ); b"; py " );"], py " c }").
Proof. vm_compute. reflexivity. Qed.

Example repetition_gives_back :
  re_search [[Plus Space]; [Plus NotBrace]; [Lit (py ";")]] (py "x  ;")
  = Some (py "x", [py " "; py " "; py ";"], []).
Proof. vm_compute. reflexivity. Qed.

Example finditer_all_matches :
  re_finditer [[Lit (py "ab")]] (py "xabyabab")
  = ([(py "x", [py "ab"]); (py "y", [py "ab"]); ([], [py "ab"])], []).
Proof. vm_compute. reflexivity. Qed.

Example sub_replaces_every_match :
  re_sub [[Lit (py "ab")]] (py "<ab>") (py "xabyab") = py "x<ab>y<ab>".
Proof. vm_compute. reflexivity. Qed.

End ReFuel.

(* ===================================================================== *)
(** * The manifest patcher: what one run does *)
(* ===================================================================== *)

(* ===================================================================== *)
(** * The manifest patcher: what one run does *)
(* ===================================================================== *)

Module PatcherFacts.
Import Py PyFacts ReFacts Uuid Patcher PatcherSpec.

(** ** The identifiers *)

Lemma new_id_eq r : new_id r = (id_of_draw r 0, shift 1 r).
Proof. reflexivity. Qed.

Lemma shift_shift j k r : shift k (shift j r) = shift (k + j) r.
Proof. unfold shift. cbn [source position]. f_equal. lia. Qed.

Lemma id_of_draw_shift j k r : id_of_draw (shift j r) k = id_of_draw r (k + j).
Proof. unfold id_of_draw. rewrite shift_shift. reflexivity. Qed.

Lemma hex_digit_not_hyphen d : hex_digit d <> 45.
Proof. unfold hex_digit. destruct (d <? 10); lia. Qed.

Lemma length_hex32 i : length (hex32 i) = 32%nat.
Proof. unfold hex32. rewrite length_map, length_seq. reflexivity. Qed.

Lemma hex32_no_hyphen i : Forall (fun x => x <> 45) (hex32 i).
Proof.
  unfold hex32. apply Forall_map, Forall_forall. intros k _.
  apply hex_digit_not_hyphen.
Qed.

Lemma remove_char_all c s : Forall (fun x => x <> c) s -> remove_char c s = s.
Proof.
  unfold remove_char. induction 1 as [|x s Hx _ IH]; [reflexivity|].
  rewrite filter_cons_True by exact Hx. f_equal. exact IH.
Qed.

Lemma remove_char_app c a b :
  remove_char c (a ++ b) = remove_char c a ++ remove_char c b.
Proof. apply filter_app. Qed.

Lemma remove_char_self c : remove_char c [c] = [].
Proof.
  unfold remove_char.
  rewrite filter_cons_False; [reflexivity | intros H; apply H; reflexivity].
Qed.

(** Removing the hyphens from [str(uuid)] leaves its 32 digits. *)
Lemma remove_hyphens_uuid_str u : remove_char 45 (uuid_str u) = hex32 u.
Proof.
  unfold uuid_str.
  pose proof (hex32_no_hyphen u) as H.
  set (h := hex32 u) in *.
  rewrite !remove_char_app, !remove_char_self.
  rewrite !remove_char_all
    by (try apply Forall_take; try apply Forall_drop; exact H).
  rewrite !app_nil_l.
  rewrite (app_assoc (take 8 h)), (take_take_drop h 8 4).
  change (8 + 4)%nat with 12%nat.
  rewrite (app_assoc (take 12 h)), (take_take_drop h 12 4).
  change (12 + 4)%nat with 16%nat.
  rewrite (app_assoc (take 16 h)), (take_take_drop h 16 4).
  apply (take_drop (16 + 4) h).
Qed.

(** Every identifier has 24 characters. *)
Lemma length_new_id r : length (fst (new_id r)) = 24%nat.
Proof.
  unfold new_id, uuid4. destruct (draw r) as [bits r']. cbn [fst].
  rewrite remove_hyphens_uuid_str. unfold upper.
  rewrite length_take, length_map, length_hex32. reflexivity.
Qed.

Lemma length_id_of_draw r k : length (id_of_draw r k) = 24%nat.
Proof. apply length_new_id. Qed.

(** ** The two callbacks *)

(** The test of the loop never holds: the part of a line between its first
    and its second ["/*"] cannot itself contain ["/*"]. *)
Lemma is_group_line_false line : is_group_line line = false.
Proof.
  unfold is_group_line.
  rewrite (split_second_no_sep (py "/*") line) by discriminate.
  apply andb_false_r.
Qed.

Lemma last_group_line_none lines : last_group_line lines = (-1)%Z.
Proof.
  unfold last_group_line.
  generalize (combine (seq 0 (length lines)) lines). intros l.
  induction l as [|[i line] l IH]; cbn [fold_left]; [reflexivity|].
  rewrite is_group_line_false. exact IH.
Qed.

(** So the callback always takes the branch that appends: the new entry
    goes after the whole of the second group, on a line of its own. *)
Lemma add_resources_to_main_group_groups gid prefix children suffix :
  add_resources_to_main_group gid [prefix; children; suffix]
  = prefix ++ children ++ nl ++ resources_entry gid ++ suffix.
Proof.
  unfold add_resources_to_main_group.
  rewrite last_group_line_none.
  change (0 <=? -1)%Z with false. cbv iota.
  rewrite join_split_snoc, <- !app_assoc. reflexivity.
Qed.

Lemma add_semgrep_to_resources_groups prefix files_ suffix r :
  add_semgrep_to_resources [prefix; files_; suffix] r
  = (prefix ++ files_ ++ nl ++ semgrep_entry (id_of_draw r 0) ++ suffix,
     shift 1 r).
Proof.
  unfold add_semgrep_to_resources. rewrite new_id_eq.
  rewrite join_split_snoc, <- !app_assoc. reflexivity.
Qed.

(** ** The stages of one run *)

Lemma patch_content_stages content r :
  patch_content content r =
  (sub_build_file (id_of_draw (snd (after_build_phase content r)) 0)
     (id_of_draw r 1) (fst (after_build_phase content r)),
   shift 1 (snd (after_build_phase content r))).
Proof.
  unfold patch_content. rewrite (new_id_eq r), (new_id_eq (shift 1 r)).
  change (id_of_draw (shift 1 r) 0) with (id_of_draw r 1).
  change (shift 1 (shift 1 r)) with (shift 2 r).
  fold (after_main_group content r).
  fold (after_group_def content r).
  fold (after_file_ref content r).
  fold (after_build_phase content r).
  destruct (after_build_phase content r) as [t4 r3]. rewrite new_id_eq.
  reflexivity.
Qed.

(** ** A run on an existing manifest *)

(** The run returns [True] and writes the patched text back. *)
Lemma add_resources_to_project_existing w content :
  files w !! project_file = Some content ->
  add_resources_to_project w
  = (true,
     World (<[project_file := fst (patch_content content (random w))]> (files w))
       (printed w ++ [msg_added]) (snd (patch_content content (random w)))).
Proof.
  intros H. unfold add_resources_to_project. rewrite H.
  destruct (patch_content content (random w)) as [content' r']. reflexivity.
Qed.

End PatcherFacts.

Module PatcherSteps.
Import Py PyFacts ReFacts Uuid Patcher PatcherSpec PatcherFacts.

Lemma three_groups (gs : list pystr) :
  length gs = 3%nat -> exists g1 g2 g3, gs = [g1; g2; g3].
Proof.
  destruct gs as [|g1 [|g2 [|g3 [|? ?]]]]; try discriminate. eauto.
Qed.

Lemma concat_three (g1 g2 g3 rest : pystr) :
  concat [g1; g2; g3] ++ rest = g1 ++ g2 ++ g3 ++ rest.
Proof. simpl. rewrite app_nil_r, <- !app_assoc. reflexivity. Qed.

(** A pattern of three groups that matches exactly once: the callback is
    applied to that match, and the rest of the text is kept. *)
Lemma sub_three_groups_once {S} re (f : list pystr -> S -> pystr * S) t st :
  length re = 3%nat ->
  match_count re t = 1%nat ->
  exists pre g1 g2 g3 rest,
    t = pre ++ g1 ++ g2 ++ g3 ++ rest /\
    match_groups re (g1 ++ g2 ++ g3 ++ rest) = Some ([g1; g2; g3], rest) /\
    re_sub_with re f t st
    = (pre ++ fst (f [g1; g2; g3] st) ++ rest, snd (f [g1; g2; g3] st)).
Proof.
  intros Hre H. apply match_count_one in H.
  destruct H as (pre & gs & rest & Hit & Ht & Hm).
  pose proof (match_groups_length _ _ _ _ Hm) as Hlen. rewrite Hre in Hlen.
  destruct (three_groups gs Hlen) as (g1 & g2 & g3 & ->).
  rewrite concat_three in Ht, Hm.
  exists pre, g1, g2, g3, rest. repeat split; [exact Ht | exact Hm |].
  apply re_sub_with_one, Hit.
Qed.

Lemma sub_main_group_once gid t :
  match_count main_group_pattern t = 1%nat ->
  appended_to_list main_group_pattern (resources_entry gid) t
    (sub_main_group gid t).
Proof.
  intros H. unfold sub_main_group.
  destruct (sub_three_groups_once main_group_pattern
              (fun gs (u : unit) => (add_resources_to_main_group gid gs, u))
              t tt eq_refl H)
    as (pre & g1 & g2 & g3 & rest & Ht & Hm & Hsub).
  exists pre, g1, g2, g3, rest. repeat split; [exact Ht | exact Hm |].
  rewrite Hsub. cbn [fst].
  rewrite add_resources_to_main_group_groups, <- !app_assoc. reflexivity.
Qed.

Lemma sub_build_phase_once t r :
  match_count resources_build_phase_pattern t = 1%nat ->
  appended_to_list resources_build_phase_pattern
    (semgrep_entry (id_of_draw r 0)) t (fst (sub_build_phase t r)) /\
  snd (sub_build_phase t r) = shift 1 r.
Proof.
  intros H. unfold sub_build_phase.
  destruct (sub_three_groups_once resources_build_phase_pattern
              add_semgrep_to_resources t r eq_refl H)
    as (pre & g1 & g2 & g3 & rest & Ht & Hm & Hsub).
  rewrite Hsub, add_semgrep_to_resources_groups. cbn [fst snd].
  split; [|reflexivity].
  exists pre, g1, g2, g3, rest. repeat split; [exact Ht | exact Hm |].
  rewrite <- !app_assoc. reflexivity.
Qed.

Lemma sub_marker_once marker block t :
  match_count [[Lit marker]] t = 1%nat ->
  inserted_before marker block t
    (re_sub [[Lit marker]] (before_marker block marker) t).
Proof.
  intros H. apply match_count_one in H.
  destruct H as (pre & gs & rest & Hit & Ht & Hm).
  apply match_groups_lit in Hm. destruct Hm as [-> _].
  simpl in Ht. rewrite app_nil_r in Ht.
  exists pre, rest. split; [exact Ht|].
  rewrite (re_sub_one _ _ _ _ _ _ Hit). unfold before_marker.
  rewrite <- !app_assoc. reflexivity.
Qed.

Lemma appended_to_list_length re entry t t' :
  appended_to_list re entry t t' ->
  length t' = (length t + (1 + length entry))%nat.
Proof.
  intros (pre & g1 & g2 & g3 & rest & -> & _ & ->).
  rewrite !length_app. simpl. lia.
Qed.

Lemma inserted_before_length marker block t t' :
  inserted_before marker block t t' ->
  length t' = (length t + (length block + 4))%nat.
Proof.
  intros (pre & rest & -> & ->). rewrite !length_app. simpl. lia.
Qed.

Lemma one_run_adds_one_entry_in_each_place content r :
  unique_matches content r ->
  one_new_entry_in_each_place content r (fst (patch_content content r)).
Proof.
  intros (H1 & H2 & H3 & H4 & H5).
  rewrite patch_content_stages. cbn [fst].
  unfold after_build_phase in *.
  destruct (sub_build_phase_once _ (shift 2 r) H4) as [Hentry Hr].
  rewrite Hr, !id_of_draw_shift in *.
  change (0 + 2)%nat with 2%nat in *. change (0 + (1 + 2))%nat with 3%nat.
  exists (after_main_group content r), (after_group_def content r),
         (after_file_ref content r),
         (fst (sub_build_phase (after_file_ref content r) (shift 2 r))).
  split; [apply sub_main_group_once, H1|].
  split; [apply sub_marker_once, H2|].
  split; [apply sub_marker_once, H3|].
  split; [exact Hentry|].
  apply sub_marker_once, H5.
Qed.

(** The characters a run adds when it adds one entry in each place. *)
Lemma one_new_entry_in_each_place_length content r out :
  one_new_entry_in_each_place content r out ->
  length out = (length content + 607)%nat.
Proof.
  intros (t1 & t2 & t3 & t4 & A1 & A2 & A3 & A4 & A5).
  apply appended_to_list_length in A1, A4.
  apply inserted_before_length in A2, A3, A5.
  unfold resources_entry, semgrep_entry, resources_group_def,
    semgrep_file_ref, semgrep_build_file_ref in *.
  rewrite !length_app, ?length_id_of_draw in *.
  simpl in *. lia.
Qed.

End PatcherSteps.

Module PatcherEntries.
Import Py PyFacts ReFacts Uuid Patcher PatcherSpec PatcherFacts.

(** The callback draws once per match, in the order of the matches. *)
Lemma sub_fold_entries ms r first :
  Forall (fun m => length (snd m) = 3%nat) ms ->
  sub_fold add_semgrep_to_resources ms (shift first r)
  = (with_entries r first ms, shift (length ms + first) r).
Proof.
  intros H. revert first. induction H as [|[pre gs] ms Hgs _ IH]; intros first.
  - reflexivity.
  - cbn [snd] in Hgs.
    destruct gs as [|g1 [|g2 [|g3 [|? ?]]]]; try discriminate.
    cbn [sub_fold]. rewrite add_semgrep_to_resources_groups.
    rewrite shift_shift, id_of_draw_shift.
    change (1 + first)%nat with (S first). rewrite IH.
    unfold with_entries. rewrite imap_cons. cbn [concat fst snd nth length].
    f_equal; [|f_equal; lia].
    rewrite <- !app_assoc. do 6 f_equal.
    f_equal. apply imap_ext. intros i m _. unfold compose.
    replace (S i + first)%nat with (i + S first)%nat by lia. reflexivity.
Qed.

Lemma sub_build_phase_entries t r first :
  sub_build_phase t (shift first r)
  = (with_entries r first (fst (re_finditer resources_build_phase_pattern t))
     ++ snd (re_finditer resources_build_phase_pattern t),
     shift (length (fst (re_finditer resources_build_phase_pattern t)) + first) r).
Proof.
  unfold sub_build_phase, re_sub_with.
  pose proof (finditer_loop_groups (length t) resources_build_phase_pattern t)
    as H.
  fold (re_finditer resources_build_phase_pattern t) in H.
  destruct (re_finditer resources_build_phase_pattern t) as [ms tail].
  cbn [fst snd] in *. rewrite (sub_fold_entries ms r first H). reflexivity.
Qed.

Lemma semgrep_build_file_ref_keyed id fid :
  keyed_by id (semgrep_build_file_ref id fid).
Proof. eexists. unfold semgrep_build_file_ref. reflexivity. Qed.

Lemma keyed_by_inj id id' fid :
  length id = length id' ->
  keyed_by id (semgrep_build_file_ref id' fid) -> id = id'.
Proof.
  intros Hlen [rest H]. unfold semgrep_build_file_ref in H.
  apply app_inv_head in H. apply app_inv_head in H.
  apply app_inj_1 in H; [|symmetry; exact Hlen].
  destruct H as [H _]. symmetry. exact H.
Qed.

End PatcherEntries.

(* ===================================================================== *)
(** * The manifest patcher: the properties of the specification *)
(* ===================================================================== *)

Module PatcherClaims.
Import Py PyFacts ReFacts Uuid Patcher PatcherSpec PatcherFacts PatcherSteps PatcherEntries.

(** ** The sample manifest *)

Example sample_manifest_has_markers :
  has_required_markers sample_manifest = true.
Proof. vm_compute. reflexivity. Qed.

Example sample_main_group_match :
  match re_search main_group_pattern sample_manifest with
  | Some (pre, gs, rest) => (length pre, map length gs, length rest)
  | None => (0, [], 0)%nat
  end = (357, [84; 43; 37], 299)%nat.
Proof. vm_compute. reflexivity. Qed.

Example sample_build_phase_match :
  match re_search resources_build_phase_pattern sample_manifest with
  | Some (pre, gs, rest) => (length pre, map length gs, length rest)
  | None => (0, [], 0)%nat
  end = (595, [125; 1; 51], 48)%nat.
Proof. vm_compute. reflexivity. Qed.

Example sample_id :
  id_of_draw sample_rng 0 = py "4A4D87C2DC2045C49C4F93D1".
Proof. vm_compute. reflexivity. Qed.

(** ** C5: a missing manifest *)

(** C5.  When the manifest file does not exist, [add_resources_to_project]
    returns [False] at once: it writes nothing and creates no file (the
    files are the same after as before), draws no random number, and only
    prints its message. *)
Theorem missing_manifest_changes_nothing (w : world) :
  files w !! project_file = None ->
  fst (add_resources_to_project w) = false /\
  files (snd (add_resources_to_project w)) = files w /\
  random (snd (add_resources_to_project w)) = random w /\
  printed (snd (add_resources_to_project w)) = printed w ++ [msg_not_found].
Proof.
  intros H. unfold add_resources_to_project. rewrite H.
  repeat split; reflexivity.
Qed.

Lemma missing_manifest_changes_nothing_witness :
  fst (add_resources_to_project (World ∅ [] sample_rng)) = false /\
  files (snd (add_resources_to_project (World ∅ [] sample_rng))) = ∅.
Proof.
  destruct (missing_manifest_changes_nothing (World ∅ [] sample_rng))
    as (H1 & H2 & _).
  - reflexivity.
  - split; [exact H1 | exact H2].
Defined.

(** ** C4: a pattern that does not match *)

(** C4.  When the manifest file exists, the run completes whatever its
    text is: it returns [True] and writes the text obtained by the five
    substitutions.  A substitution whose pattern has no match in the text
    it is applied to leaves that text as it is, and the following
    substitutions are applied all the same. *)
Theorem pattern_mismatch_is_silent (w : world) (content : pystr) :
  files w !! project_file = Some content ->
  let r := random w in
  add_resources_to_project w
  = (true,
     World (<[project_file := fst (patch_content content r)]> (files w))
       (printed w ++ [msg_added]) (snd (patch_content content r))) /\
  fst (patch_content content r)
  = sub_build_file (id_of_draw (snd (after_build_phase content r)) 0)
      (id_of_draw r 1) (fst (after_build_phase content r)) /\
  (re_search main_group_pattern content = None ->
   after_main_group content r = content) /\
  (re_search [[Lit end_group_marker]] (after_main_group content r) = None ->
   after_group_def content r = after_main_group content r) /\
  (re_search [[Lit end_file_reference_marker]] (after_group_def content r) = None ->
   after_file_ref content r = after_group_def content r) /\
  (re_search resources_build_phase_pattern (after_file_ref content r) = None ->
   fst (after_build_phase content r) = after_file_ref content r) /\
  (re_search [[Lit end_build_file_marker]] (fst (after_build_phase content r)) = None ->
   fst (patch_content content r) = fst (after_build_phase content r)).
Proof.
  intros H r. split; [|split].
  - apply add_resources_to_project_existing, H.
  - rewrite patch_content_stages. reflexivity.
  - split; [|split; [|split; [|split]]]; intros Hno.
    + unfold after_main_group, sub_main_group.
      rewrite (re_sub_with_no_match _ _ _ _ Hno). reflexivity.
    + unfold after_group_def, sub_group_def. apply re_sub_no_match, Hno.
    + unfold after_file_ref, sub_file_ref. apply re_sub_no_match, Hno.
    + unfold after_build_phase, sub_build_phase.
      rewrite (re_sub_with_no_match _ _ _ _ Hno). reflexivity.
    + rewrite patch_content_stages. cbn [fst]. unfold sub_build_file.
      apply re_sub_no_match, Hno.
Qed.

(** On [manifest_without_main_group] the first substitution changes
    nothing and the run still completes, with the four other entries
    added: a partial application. *)
Lemma pattern_mismatch_is_silent_witness :
  fst (add_resources_to_project (world_of manifest_without_main_group)) = true /\
  after_main_group manifest_without_main_group sample_rng
  = manifest_without_main_group /\
  length (fst (patch_content manifest_without_main_group sample_rng))
  = (length manifest_without_main_group + 560)%nat.
Proof.
  destruct (pattern_mismatch_is_silent
              (world_of manifest_without_main_group)
              manifest_without_main_group)
    as (H1 & _ & H2 & _).
  - vm_compute. reflexivity.
  - split; [rewrite H1; reflexivity|].
    split; [apply H2; vm_compute; reflexivity|].
    vm_compute. reflexivity.
Defined.

(** ** C2: one run, and a second run *)

(** On [duplicated_marker_manifest], which has all the markers, the end of
    group section marker occurs twice: [re.sub] replaces both occurrences
    and the run adds two group definitions, so it does not add exactly one
    entry in each place. *)
Lemma duplicated_marker_adds_two_group_definitions :
  has_required_markers duplicated_marker_manifest = true /\
  match_count [[Lit end_group_marker]]
    (after_main_group duplicated_marker_manifest sample_rng) = 2%nat /\
  match_count
    [[Lit (resources_group_def (id_of_draw sample_rng 0) (id_of_draw sample_rng 1))]]
    (fst (patch_content duplicated_marker_manifest sample_rng)) = 2%nat /\
  ~ one_new_entry_in_each_place duplicated_marker_manifest sample_rng
      (fst (patch_content duplicated_marker_manifest sample_rng)).
Proof.
  split; [vm_compute; reflexivity|].
  split; [vm_compute; reflexivity|].
  split; [vm_compute; reflexivity|].
  intros H. apply one_new_entry_in_each_place_length in H.
  vm_compute in H. discriminate.
Qed.

(** C2 (amended).  When each of the five patterns matches exactly once in
    the text its substitution is applied to, one run of
    [add_resources_to_project] writes a manifest with exactly one new entry
    in each of the five places: the children of the root group, the group
    definitions, the file references, the files of the Resources build
    phase and the build-file records.  When that holds again for the
    manifest written, a second run adds one more entry in each of the five
    places, with fresh identifiers, and writes a manifest that differs
    from the first one: the operation is not idempotent. *)
Theorem two_runs_add_two_entries_in_each_place (w : world) (content : pystr) :
  files w !! project_file = Some content ->
  unique_matches content (random w) ->
  let w1 := snd (add_resources_to_project w) in
  exists out1,
    files w1 !! project_file = Some out1 /\
    one_new_entry_in_each_place content (random w) out1 /\
    (unique_matches out1 (random w1) ->
     exists out2,
       files (snd (add_resources_to_project w1)) !! project_file = Some out2 /\
       one_new_entry_in_each_place out1 (random w1) out2 /\
       out2 <> out1).
Proof.
  intros Hfile H w1. subst w1.
  rewrite (add_resources_to_project_existing w content Hfile). cbn [snd files random].
  exists (fst (patch_content content (random w))).
  split; [apply lookup_insert_eq|].
  split; [apply one_run_adds_one_entry_in_each_place, H|].
  intros H'.
  set (out1 := fst (patch_content content (random w))) in *.
  set (r1 := snd (patch_content content (random w))) in *.
  set (w1 := World _ _ r1).
  assert (Hfile1 : files w1 !! project_file = Some out1)
    by apply lookup_insert_eq.
  rewrite (add_resources_to_project_existing w1 out1 Hfile1).
  cbn [snd files random w1].
  exists (fst (patch_content out1 r1)).
  split; [apply lookup_insert_eq|].
  pose proof (one_run_adds_one_entry_in_each_place out1 r1 H') as Hrun.
  split; [exact Hrun|].
  apply one_new_entry_in_each_place_length in Hrun.
  intros Heq. rewrite Heq in Hrun. lia.
Qed.

(** On [sample_manifest] both runs find each pattern exactly once. *)
Lemma two_runs_add_two_entries_in_each_place_witness :
  let w1 := snd (add_resources_to_project (world_of sample_manifest)) in
  exists out1 out2,
    files w1 !! project_file = Some out1 /\
    files (snd (add_resources_to_project w1)) !! project_file = Some out2 /\
    one_new_entry_in_each_place sample_manifest sample_rng out1 /\
    one_new_entry_in_each_place out1 (random w1) out2 /\
    out2 <> out1.
Proof.
  intros w1.
  destruct (two_runs_add_two_entries_in_each_place
              (world_of sample_manifest) sample_manifest)
    as (out1 & Hout1 & Hone & Htwo).
  - vm_compute. reflexivity.
  - vm_compute. repeat split; reflexivity.
  - fold w1 in Hout1, Htwo.
    assert (Hout1' : out1 = fst (patch_content sample_manifest sample_rng)).
    { pose proof (add_resources_to_project_existing (world_of sample_manifest)
                    sample_manifest eq_refl) as Hrun.
      unfold w1 in Hout1. rewrite Hrun in Hout1. cbn [snd files] in Hout1.
      rewrite lookup_insert_eq in Hout1. apply (inj Some) in Hout1.
      symmetry. exact Hout1. }
    destruct Htwo as (out2 & Hout2 & Hone2 & Hne).
    + subst out1. vm_compute. repeat split; reflexivity.
    + exists out1, out2. repeat split; assumption.
Defined.

(** ** C3: the build-phase entry and the build-file record *)

(** C3.  In every run (the text a run writes is
    [fst (patch_content content r)]), the [i]-th block that
    [resources_build_phase_pattern] matches gets, on a line of its own
    after its list of files, the entry
    [<identifier> /* semgrep in Resources */,] whose identifier comes
    from a draw of its own (draw [i + 2]); and before every end of
    build-file section marker the record
    [<identifier> /* semgrep in Resources */ = {isa = PBXBuildFile; ...}]
    is inserted, whose identifier comes from the draw made after those
    (draw [n + 2] for [n] blocks).  The identifiers have 24 characters.
    So when the identifier of an entry differs from that of the record,
    the record that is inserted is not keyed by the identifier the entry
    refers to: the entry is dangling. *)
Theorem build_phase_entry_is_dangling (content : pystr) (r : rng) :
  let found :=
    re_finditer resources_build_phase_pattern (after_file_ref content r) in
  let n := length (fst found) in
  let entry_id i := id_of_draw r (i + 2) in
  let record_id := id_of_draw r (n + 2) in
  let record :=
    nl ++ tabs 2 ++ record_id ++ py " /* semgrep in Resources */ = {"
    ++ nl ++ tabs 3 ++ py "isa = PBXBuildFile;"
    ++ nl ++ tabs 3 ++ py "fileRef = " ++ id_of_draw r 1 ++ py " /* semgrep */;"
    ++ nl ++ tabs 2 ++ py "};" in
  fst (after_build_phase content r)
  = concat
      (imap (fun i m =>
               fst m ++ nth 0 (snd m) [] ++ nth 1 (snd m) [] ++ nl
               ++ tabs 4 ++ entry_id i ++ py " /* semgrep in Resources */,"
               ++ nl ++ nth 2 (snd m) [])
         (fst found))
    ++ snd found /\
  fst (patch_content content r)
  = re_sub [[Lit (py "/* End PBXBuildFile section */")]]
      (record ++ nl ++ nl ++ tabs 2 ++ py "/* End PBXBuildFile section */")
      (fst (after_build_phase content r)) /\
  (forall k, length (id_of_draw r k) = 24%nat) /\
  forall i, (i < n)%nat ->
    entry_id i <> record_id ->
    ~ keyed_by (entry_id i) record.
Proof.
  intros found n entry_id record_id record.
  assert (Hphase : after_build_phase content r
                   = (with_entries r 2 (fst found) ++ snd found,
                      shift (n + 2) r)).
  { unfold after_build_phase. apply sub_build_phase_entries. }
  assert (Hrecord : record
                    = semgrep_build_file_ref record_id (id_of_draw r 1)).
  { unfold record, semgrep_build_file_ref. reflexivity. }
  split.
  { rewrite Hphase. cbn [fst]. unfold with_entries. f_equal. f_equal.
    apply imap_ext. intros i m _. unfold semgrep_entry, entry_id.
    rewrite <- !app_assoc. reflexivity. }
  split.
  { rewrite patch_content_stages, Hphase. cbn [fst snd].
    rewrite id_of_draw_shift, Hrecord. reflexivity. }
  split; [intros k; apply length_id_of_draw|].
  intros i _ Hne Hkey. apply Hne. rewrite Hrecord in Hkey.
  apply (keyed_by_inj _ _ (id_of_draw r 1)); [|exact Hkey].
  unfold entry_id, record_id. rewrite !length_id_of_draw. reflexivity.
Qed.

(** On [sample_manifest] the block is matched once: its entry has the
    identifier of draw 2, the record that of draw 3, and the two
    differ. *)
Lemma build_phase_entry_is_dangling_witness :
  length (fst (re_finditer resources_build_phase_pattern
                 (after_file_ref sample_manifest sample_rng))) = 1%nat /\
  id_of_draw sample_rng 2 = py "4C29118DD8ED432FB6C4B0AE" /\
  id_of_draw sample_rng 3 = py "4D16D673575441E4A3FF3F1C" /\
  ~ keyed_by (id_of_draw sample_rng 2)
      (semgrep_build_file_ref (id_of_draw sample_rng 3) (id_of_draw sample_rng 1)).
Proof.
  assert (Hn : length (fst (re_finditer resources_build_phase_pattern
                 (after_file_ref sample_manifest sample_rng))) = 1%nat)
    by (vm_compute; reflexivity).
  assert (Hne : id_of_draw sample_rng 2 <> id_of_draw sample_rng 3)
    by (vm_compute; discriminate).
  split; [exact Hn|].
  split; [vm_compute; reflexivity|]. split; [vm_compute; reflexivity|].
  destruct (build_phase_entry_is_dangling sample_manifest sample_rng)
    as (_ & _ & _ & H).
  rewrite Hn in H. apply (H 0%nat); [lia | exact Hne].
Defined.

End PatcherClaims.
(* ===================================================================== *)
(** * The scanner wrapper: what a run does *)
(* ===================================================================== *)

Module ScannerFacts.
Import Py PyFacts Scanner ScannerSpec.

(** ** [find_system_semgrep] *)

Lemma find_system_semgrep_cwd e st :
  cwd (snd (find_system_semgrep e st)) = cwd st.
Proof. unfold find_system_semgrep. repeat case_match; reflexivity. Qed.

Lemma find_system_semgrep_stdout e st :
  stdout (snd (find_system_semgrep e st)) = stdout st.
Proof. unfold find_system_semgrep. repeat case_match; reflexivity. Qed.


(** What is located depends on the host and on the working directory
    only. *)
Lemma find_system_semgrep_result e st st' :
  cwd st = cwd st' ->
  fst (find_system_semgrep e st) = fst (find_system_semgrep e st').
Proof.
  intros H. unfold find_system_semgrep. cbn [cwd log_call]. rewrite H.
  repeat case_match; reflexivity.
Qed.

Lemma find_none {A} (f : A -> bool) l :
  Forall (fun x => f x = false) l -> List.find f l = None.
Proof.
  induction 1 as [|x l Hx _ IH]; [reflexivity|]. simpl. rewrite Hx. exact IH.
Qed.

Lemma find_app_first {A} (f : A -> bool) before x after :
  Forall (fun y => f y = false) before -> f x = true ->
  List.find f (before ++ x :: after) = Some x.
Proof.
  induction 1 as [|y before Hy _ IH]; intros Hx; simpl.
  - rewrite Hx. reflexivity.
  - rewrite Hy. apply IH, Hx.
Qed.


Lemma find_system_semgrep_escapes e st msg :
  lookup_escapes e (cwd st) msg ->
  find_system_semgrep e st
  = (Escapes OtherException msg, log_call (Run which_cmd 5) st).
Proof.
  intros [Hc Hl]. unfold find_system_semgrep.
  rewrite (find_none _ _ Hc). cbn [cwd log_call]. rewrite Hl. reflexivity.
Qed.

(** Nothing is located only after the lookup has been run. *)
Lemma find_system_semgrep_none e st :
  fst (find_system_semgrep e st) = Value None ->
  snd (find_system_semgrep e st) = log_call (Run which_cmd 5) st.
Proof.
  unfold find_system_semgrep. repeat case_match; cbn [fst snd];
    try discriminate; reflexivity.
Qed.

(** An exception leaves [find_system_semgrep] only when the lookup was
    run and raised it. *)
Lemma find_system_semgrep_escapes_inv e st cls msg :
  fst (find_system_semgrep e st) = Escapes cls msg ->
  cls = OtherException /\ lookup_escapes e (cwd st) msg.
Proof.
  unfold find_system_semgrep, lookup_escapes, no_candidate.
  destruct (List.find (is_executable_file e) (possible_paths e)) eqn:F;
    [discriminate|].
  cbn [cwd log_call].
  destruct (subprocess_run e which_cmd 5 (cwd st)) as [rc out err| |c m];
    [repeat case_match; discriminate | discriminate |].
  destruct c; try discriminate. cbn [fst]. intros [= <- <-].
  split; [reflexivity|]. split; [|reflexivity].
  apply Forall_forall. intros x Hx.
  apply (List.find_none _ _ F), list_elem_of_In, Hx.
Qed.

(** ** [run_semgrep_scan], path by path *)

Section Located.
Context (e : env) (project_path : pystr) (configs : option (list pystr)).
Context (st : proc).
Context (semgrep_path : pystr).
Hypothesis Hfound : fst (find_system_semgrep e st) = Value (Some semgrep_path).
Hypothesis Hpath : semgrep_path <> [].

Let cmd := scan_cmd semgrep_path (configs_or_default configs) project_path.
Let st1 := snd (find_system_semgrep e st).

Lemma run_chdir_error msg :
  chdir_to e (cwd st) project_path = ChdirError msg ->
  run_semgrep_scan e project_path configs st = (Value (fault_result msg cmd), st1).
Proof.
  intros Hcd. unfold run_semgrep_scan, st1, cmd.
  pose proof (find_system_semgrep_cwd e st) as Hcwd.
  destruct (find_system_semgrep e st) as [sp s1]. cbn [fst snd] in *.
  subst sp. destruct semgrep_path as [|c sp]; [contradiction|].
  rewrite Hcwd, Hcd. reflexivity.
Qed.

Lemma run_timeout dir :
  chdir_to e (cwd st) project_path = Changed dir ->
  subprocess_run e cmd 300 dir = TimeoutExpired ->
  run_semgrep_scan e project_path configs st
  = (Value (timeout_result cmd), log_call (Run cmd 300) (set_cwd dir st1)).
Proof.
  intros Hcd Hrun. unfold run_semgrep_scan, st1, cmd in *.
  pose proof (find_system_semgrep_cwd e st) as Hcwd.
  destruct (find_system_semgrep e st) as [sp s1]. cbn [fst snd] in *.
  subst sp. destruct semgrep_path as [|c sp]; [contradiction|].
  rewrite Hcwd, Hcd. cbn [cwd set_cwd log_call]. rewrite Hrun. reflexivity.
Qed.

Lemma run_raised dir cls msg :
  chdir_to e (cwd st) project_path = Changed dir ->
  subprocess_run e cmd 300 dir = Raised cls msg ->
  run_semgrep_scan e project_path configs st
  = (Value (fault_result msg cmd), log_call (Run cmd 300) (set_cwd dir st1)).
Proof.
  intros Hcd Hrun. unfold run_semgrep_scan, st1, cmd in *.
  pose proof (find_system_semgrep_cwd e st) as Hcwd.
  destruct (find_system_semgrep e st) as [sp s1]. cbn [fst snd] in *.
  subst sp. destruct semgrep_path as [|c sp]; [contradiction|].
  rewrite Hcwd, Hcd. cbn [cwd set_cwd log_call]. rewrite Hrun. reflexivity.
Qed.

Lemma run_returned dir returncode out err back :
  chdir_to e (cwd st) project_path = Changed dir ->
  subprocess_run e cmd 300 dir = Returned returncode out err ->
  chdir_to e dir (cwd st) = Changed back ->
  run_semgrep_scan e project_path configs st
  = (Value (Result (returncode =? 0)%Z None (out ++ err)
              (Some (join (py " ") cmd)) (Some returncode)),
     set_cwd back (log_call (Run cmd 300) (set_cwd dir st1))).
Proof.
  intros Hcd Hrun Hback. unfold run_semgrep_scan, st1, cmd in *.
  pose proof (find_system_semgrep_cwd e st) as Hcwd.
  destruct (find_system_semgrep e st) as [sp s1]. cbn [fst snd] in *.
  subst sp. destruct semgrep_path as [|c sp]; [contradiction|].
  rewrite Hcwd, Hcd. cbn [cwd set_cwd log_call]. rewrite Hrun, Hback.
  reflexivity.
Qed.

(** The scan completes and the directory the call started in cannot be
    entered again: [except Exception] takes over. *)
Lemma run_restore_error dir returncode out err msg :
  chdir_to e (cwd st) project_path = Changed dir ->
  subprocess_run e cmd 300 dir = Returned returncode out err ->
  chdir_to e dir (cwd st) = ChdirError msg ->
  run_semgrep_scan e project_path configs st
  = (Value (fault_result msg cmd), log_call (Run cmd 300) (set_cwd dir st1)).
Proof.
  intros Hcd Hrun Hback. unfold run_semgrep_scan, st1, cmd in *.
  pose proof (find_system_semgrep_cwd e st) as Hcwd.
  destruct (find_system_semgrep e st) as [sp s1]. cbn [fst snd] in *.
  subst sp. destruct semgrep_path as [|c sp]; [contradiction|].
  rewrite Hcwd, Hcd. cbn [cwd set_cwd log_call]. rewrite Hrun, Hback.
  reflexivity.
Qed.

End Located.

Lemma run_not_located e project_path configs st :
  fst (find_system_semgrep e st) = Value None ->
  run_semgrep_scan e project_path configs st
  = (Value (not_found_result e (snd (find_system_semgrep e st))),
     log_call (Popen (py "date")) (snd (find_system_semgrep e st))).
Proof.
  intros H. unfold run_semgrep_scan, not_found_result, date_at.
  destruct (find_system_semgrep e st) as [sp s1]. cbn [fst snd] in *.
  subst sp. reflexivity.
Qed.

Lemma run_escapes e project_path configs st cls msg :
  fst (find_system_semgrep e st) = Escapes cls msg ->
  run_semgrep_scan e project_path configs st
  = (Escapes cls msg, snd (find_system_semgrep e st)).
Proof.
  intros H. unfold run_semgrep_scan.
  destruct (find_system_semgrep e st) as [sp s1]. cbn [fst snd] in *.
  subst sp. reflexivity.
Qed.

(** An exception leaves [run_semgrep_scan] only when it leaves
    [find_system_semgrep]. *)
Lemma run_escapes_inv e project_path configs st cls msg :
  fst (run_semgrep_scan e project_path configs st) = Escapes cls msg ->
  fst (find_system_semgrep e st) = Escapes cls msg.
Proof.
  unfold run_semgrep_scan, get_installation_instructions, popen_date.
  destruct (find_system_semgrep e st) as [sp s1]. cbn [fst].
  repeat case_match; cbn [fst]; try discriminate; intros [= -> ->]; reflexivity.
Qed.

(** [run_semgrep_scan] prints nothing. *)
Lemma run_semgrep_scan_stdout e project_path configs st :
  stdout (snd (run_semgrep_scan e project_path configs st)) = stdout st.
Proof.
  unfold run_semgrep_scan, get_installation_instructions, popen_date.
  pose proof (find_system_semgrep_stdout e st) as H.
  destruct (find_system_semgrep e st) as [sp s1]. cbn [fst snd] in *.
  repeat case_match; cbn [snd stdout log_call set_cwd]; exact H.
Qed.

Lemma find_system_semgrep_calls_eq e st st' :
  cwd st = cwd st' -> calls st = calls st' ->
  calls (snd (find_system_semgrep e st))
  = calls (snd (find_system_semgrep e st')).
Proof.
  intros Hc Hl. unfold find_system_semgrep. cbn [cwd log_call].
  rewrite Hc.
  repeat case_match; cbn [snd calls log_call]; rewrite ?Hl; reflexivity.
Qed.

(** What the scan gives depends on the host, on the working directory and
    on the child processes started before, not on what has been
    printed. *)
Lemma run_semgrep_scan_result e project_path configs st st' :
  cwd st = cwd st' -> calls st = calls st' ->
  fst (run_semgrep_scan e project_path configs st)
  = fst (run_semgrep_scan e project_path configs st').
Proof.
  intros H Hl.
  unfold run_semgrep_scan, get_installation_instructions, popen_date.
  pose proof (find_system_semgrep_result e st st' H) as Hres.
  pose proof (find_system_semgrep_cwd e st) as Hc.
  pose proof (find_system_semgrep_cwd e st') as Hc'.
  pose proof (find_system_semgrep_calls_eq e st st' H Hl) as Hcalls.
  destruct (find_system_semgrep e st) as [sp s1].
  destruct (find_system_semgrep e st') as [sp' s1'].
  cbn [fst snd] in *. subst sp'.
  assert (Hs : cwd s1 = cwd s1') by congruence.
  cbn [cwd log_call set_cwd]. rewrite Hs, Hcalls.
  repeat case_match; reflexivity.
Qed.

Lemma join_scan_cmd_nonempty semgrep_path configs project_path :
  truthy (Some (join (py " ") (scan_cmd semgrep_path configs project_path)))
  = true.
Proof.
  unfold scan_cmd.
  change ([semgrep_path; py "scan"] ++ ?l) with (semgrep_path :: py "scan" :: l).
  set (l := map _ configs ++ _).
  assert (py "scan" :: l <> []) as H by discriminate.
  rewrite (join_cons _ _ _ H).
  destruct semgrep_path; reflexivity.
Qed.

Example default_command_line :
  join (py " ") (scan_cmd (py "/opt/homebrew/bin/semgrep")
                   (configs_or_default None) (py "/proj"))
  = py "/opt/homebrew/bin/semgrep scan --config=p/swift --config=p/owasp-top-ten --config=p/secrets --json --verbose /proj".
Proof. vm_compute. reflexivity. Qed.

(** ** [main] *)

(** With a target path that exists, [main] prints the head of the
    report and runs the scan.  When the scan returns, it prints the lines
    for the result and the trailer and ends with status 0. *)
Lemma main_report e st prog project_path rest res :
  argv e = prog :: project_path :: rest ->
  path_exists e project_path = true ->
  fst (run_semgrep_scan e project_path None (at_scan st)) = Value res ->
  fst (main e st) = Value 0%Z /\
  stdout (snd (main e st))
  = stdout st ++ report_head (date_at e st) project_path
    ++ report_body res ++ report_trailer.
Proof.
  intros Hargv Hex Hres. unfold main. rewrite Hargv, Hex. cbn [negb].
  unfold popen_date. cbv beta iota zeta.
  match goal with
  | |- context [run_semgrep_scan e project_path None ?s] => set (st9 := s)
  end.
  assert (Hst9 : st9 = Proc (cwd st)
                         (stdout st ++ report_head (date_at e st) project_path)
                         (calls (at_scan st))).
  { subst st9. unfold print, log_call, report_head, date_at, at_scan.
    cbn [cwd stdout calls]. rewrite <- !app_assoc. reflexivity. }
  assert (Hsame : fst (run_semgrep_scan e project_path None st9)
                  = fst (run_semgrep_scan e project_path None (at_scan st))).
  { apply run_semgrep_scan_result; rewrite Hst9; reflexivity. }
  rewrite Hres in Hsame.
  pose proof (run_semgrep_scan_stdout e project_path None st9) as Hout.
  rewrite Hst9 in Hout at 2. cbn [stdout] in Hout.
  destruct (run_semgrep_scan e project_path None st9) as [scan st'].
  cbn [fst snd] in *. subst scan.
  unfold report_body, report_trailer.
  destruct (truthy (command res)); destruct (success res);
    [ destruct (contains results_marker (output res)) | |
      destruct (contains results_marker (output res)) | ];
    try (destruct (error res) as [err|];
         [destruct (bool_decide (err = py "Semgrep not found"))|]);
    (split; [reflexivity|]);
    cbn [snd stdout print]; rewrite Hout, <- !app_assoc; reflexivity.
Qed.

(** When an exception leaves the scan, it leaves [main] after the head of
    the report. *)
Lemma main_escapes e st prog project_path rest cls msg :
  argv e = prog :: project_path :: rest ->
  path_exists e project_path = true ->
  fst (run_semgrep_scan e project_path None (at_scan st)) = Escapes cls msg ->
  fst (main e st) = Escapes cls msg /\
  stdout (snd (main e st))
  = stdout st ++ report_head (date_at e st) project_path.
Proof.
  intros Hargv Hex Hres. unfold main. rewrite Hargv, Hex. cbn [negb].
  unfold popen_date. cbv beta iota zeta.
  match goal with
  | |- context [run_semgrep_scan e project_path None ?s] => set (st9 := s)
  end.
  assert (Hst9 : st9 = Proc (cwd st)
                         (stdout st ++ report_head (date_at e st) project_path)
                         (calls (at_scan st))).
  { subst st9. unfold print, log_call, report_head, date_at, at_scan.
    cbn [cwd stdout calls]. rewrite <- !app_assoc. reflexivity. }
  assert (Hsame : fst (run_semgrep_scan e project_path None st9)
                  = fst (run_semgrep_scan e project_path None (at_scan st))).
  { apply run_semgrep_scan_result; rewrite Hst9; reflexivity. }
  rewrite Hres in Hsame.
  pose proof (run_semgrep_scan_stdout e project_path None st9) as Hout.
  rewrite Hst9 in Hout at 2. cbn [stdout] in Hout.
  destruct (run_semgrep_scan e project_path None st9) as [scan st'].
  cbn [fst snd] in *. subst scan. split; [reflexivity | exact Hout].
Qed.

(** What [main] has located when it runs the scan is what is located at
    its start. *)
Lemma find_at_scan e st :
  fst (find_system_semgrep e (at_scan st)) = fst (find_system_semgrep e st).
Proof. apply find_system_semgrep_result. reflexivity. Qed.

End ScannerFacts.

(* ===================================================================== *)
(** * The scanner wrapper: the properties of the specification *)
(* ===================================================================== *)

Module ScannerClaims.
Import Py PyFacts Scanner ScannerSpec ScannerFacts.

(** ** C1: the working directory *)

(** When the scan completes, the working directory is where
    [os.chdir(original_cwd)] leads. *)
Lemma working_directory_restored_on_completion
    e project_path configs st semgrep_path dir returncode out err back :
  fst (find_system_semgrep e st) = Value (Some semgrep_path) ->
  semgrep_path <> [] ->
  chdir_to e (cwd st) project_path = Changed dir ->
  subprocess_run e (scan_cmd semgrep_path (configs_or_default configs) project_path) 300 dir
  = Returned returncode out err ->
  chdir_to e dir (cwd st) = Changed back ->
  cwd (snd (run_semgrep_scan e project_path configs st)) = back.
Proof.
  intros H1 H2 H3 H4 H5.
  rewrite (run_returned e project_path configs st semgrep_path H1 H2 dir
             returncode out err back H3 H4 H5).
  reflexivity.
Qed.

(** When the scan runs out of time or raises, the working directory stays
    where [os.chdir(project_path)] led. *)
Lemma working_directory_left_on_timeout_or_fault
    e project_path configs st semgrep_path dir :
  fst (find_system_semgrep e st) = Value (Some semgrep_path) ->
  semgrep_path <> [] ->
  chdir_to e (cwd st) project_path = Changed dir ->
  (subprocess_run e (scan_cmd semgrep_path (configs_or_default configs) project_path) 300 dir
   = TimeoutExpired \/
   exists cls msg,
     subprocess_run e (scan_cmd semgrep_path (configs_or_default configs) project_path) 300 dir
     = Raised cls msg) ->
  cwd (snd (run_semgrep_scan e project_path configs st)) = dir.
Proof.
  intros H1 H2 H3 [H4|(cls & msg & H4)].
  - rewrite (run_timeout e project_path configs st semgrep_path H1 H2 dir H3 H4).
    reflexivity.
  - rewrite (run_raised e project_path configs st semgrep_path H1 H2 dir cls
               msg H3 H4).
    reflexivity.
Qed.

(** C1.  The specification asks that the working directory after
    [run_semgrep_scan] be the one before it on every exit path.  On
    [timeout_host], started in [/home/user] on the project [/proj], an
    executable is located, the scan runs out of time, and the call returns
    with the working directory [/proj]: the directory is not restored. *)
Theorem working_directory_not_restored_after_timeout :
  fst (find_system_semgrep timeout_host start) = Value (Some homebrew_semgrep) /\
  fst (run_semgrep_scan timeout_host (py "/proj") None start)
  = Value (timeout_result (scan_cmd homebrew_semgrep default_configs (py "/proj"))) /\
  cwd start = py "/home/user" /\
  cwd (snd (run_semgrep_scan timeout_host (py "/proj") None start))
  = py "/proj".
Proof. vm_compute. repeat split; reflexivity. Qed.

(** ** C6: no executable *)




(** ** C7: the time bound *)

(** C7.  The scan is started with a time bound of 300 seconds, and when it
    runs out of time [run_semgrep_scan] returns a result (it does not
    raise) with [success] false, the fixed message of the time-out in
    [output], and the command line it attempted in [command]. *)
Theorem timeout_gives_failure_result
    e project_path configs st semgrep_path dir :
  fst (find_system_semgrep e st) = Value (Some semgrep_path) ->
  semgrep_path <> [] ->
  chdir_to e (cwd st) project_path = Changed dir ->
  subprocess_run e (scan_cmd semgrep_path (configs_or_default configs) project_path) 300 dir
  = TimeoutExpired ->
  let cmd := scan_cmd semgrep_path (configs_or_default configs) project_path in
  fst (run_semgrep_scan e project_path configs st)
  = Value (Result false (Some (py "Scan timed out"))
             (py "Semgrep scan timed out after 5 minutes")
             (Some (join (py " ") cmd)) None) /\
  calls (snd (run_semgrep_scan e project_path configs st))
  = calls (snd (find_system_semgrep e st)) ++ [Run cmd 300].
Proof.
  intros H1 H2 H3 H4 cmd.
  rewrite (run_timeout e project_path configs st semgrep_path H1 H2 dir H3 H4).
  split; reflexivity.
Qed.

Lemma timeout_gives_failure_result_witness :
  fst (run_semgrep_scan timeout_host (py "/proj") None start)
  = Value (Result false (Some (py "Scan timed out"))
             (py "Semgrep scan timed out after 5 minutes")
             (Some (py "/opt/homebrew/bin/semgrep scan --config=p/swift --config=p/owasp-top-ten --config=p/secrets --json --verbose /proj"))
             None) /\
  calls (snd (run_semgrep_scan timeout_host (py "/proj") None start))
  = [Run (scan_cmd homebrew_semgrep default_configs (py "/proj")) 300].
Proof.
  destruct (timeout_gives_failure_result timeout_host (py "/proj")
              None start homebrew_semgrep (py "/proj"))
    as [H1 H2].
  - vm_compute. reflexivity.
  - discriminate.
  - reflexivity.
  - reflexivity.
  - rewrite H1, H2. split; vm_compute; reflexivity.
Defined.

(** ** C8: a scan that completes *)




(** ** C9: the summary line *)




(** ** C10: the exit status *)

(** C10.  Called with a target path that does not exist, [main] exits
    with status 1 without having started any child process.  Called with
    a target path that exists, it ends with status 0, whatever the scan
    gave, unless no candidate path is an executable file and the lookup
    raises an exception that [find_system_semgrep] does not catch: then
    the exception leaves [main] and the process ends with status 1. *)
Theorem exit_status_follows_target_path e st prog project_path rest :
  argv e = prog :: project_path :: rest ->
  (path_exists e project_path = false ->
   fst (main e st) = Value 1%Z /\
   exit_status (fst (main e st)) = 1%Z /\
   calls (snd (main e st)) = calls st) /\
  (path_exists e project_path = true ->
   (forall msg, ~ lookup_escapes e (cwd st) msg) ->
   fst (main e st) = Value 0%Z /\
   exit_status (fst (main e st)) = 0%Z) /\
  (path_exists e project_path = true ->
   forall msg, lookup_escapes e (cwd st) msg ->
   fst (main e st) = Escapes OtherException msg /\
   exit_status (fst (main e st)) = 1%Z).
Proof.
  intros Hargv. split; [|split].
  - intros Hex. unfold main. rewrite Hargv, Hex. cbn [negb].
    repeat split.
  - intros Hex Hcaught.
    destruct (fst (run_semgrep_scan e project_path None (at_scan st)))
      as [res|cls msg] eqn:Hscan.
    + destruct (main_report e st prog project_path rest res Hargv Hex Hscan)
        as [-> _].
      split; reflexivity.
    + apply run_escapes_inv, find_system_semgrep_escapes_inv in Hscan.
      destruct Hscan as [_ Hesc]. destruct (Hcaught msg Hesc).
  - intros Hex msg Hesc.
    assert (Hscan : fst (run_semgrep_scan e project_path None (at_scan st))
                    = Escapes OtherException msg).
    { rewrite (run_escapes e project_path None (at_scan st) OtherException msg);
        [reflexivity|].
      rewrite (find_system_semgrep_escapes e (at_scan st) msg Hesc).
      reflexivity. }
    destruct (main_escapes e st prog project_path rest _ _ Hargv Hex Hscan)
      as [-> _].
    split; reflexivity.
Qed.

Lemma exit_status_follows_target_path_witness :
  exit_status
    (fst (main (host script_args [homebrew_semgrep] [] (fun _ _ _ => TimeoutExpired))
            start)) = 1%Z /\
  calls (snd (main (host script_args [homebrew_semgrep] []
                      (fun _ _ _ => TimeoutExpired)) start)) = [] /\
  exit_status (fst (main timeout_host start)) = 0%Z /\
  exit_status (fst (main denied_host start)) = 1%Z.
Proof.
  destruct (exit_status_follows_target_path
              (host script_args [homebrew_semgrep] [] (fun _ _ _ => TimeoutExpired))
              start (py "semgrep_standalone.py") (py "/proj") [] eq_refl)
    as [H1 _].
  destruct (exit_status_follows_target_path timeout_host start
              (py "semgrep_standalone.py") (py "/proj") [] eq_refl)
    as (_ & H2 & _).
  destruct (exit_status_follows_target_path denied_host start
              (py "semgrep_standalone.py") (py "/proj") [] eq_refl)
    as (_ & _ & H3).
  destruct (H1 eq_refl) as (_ & H1a & H1b).
  split; [exact H1a|]. split; [exact H1b|]. split.
  - apply H2; [reflexivity|]. intros msg [_ Hrun]. discriminate Hrun.
  - apply (H3 eq_refl permission_denied).
    split; [unfold no_candidate; vm_compute; repeat constructor | reflexivity].
Defined.

(** With a target path that exists the status is not always 0.  On
    [denied_host] the path [/proj] exists, Semgrep is in none of the
    candidate paths and starting [which] raises [PermissionError]: the
    exception leaves [main] after the head of the report, and the process
    ends with status 1. *)
Theorem existing_path_exits_with_1_when_lookup_raises :
  argv denied_host = [py "semgrep_standalone.py"; py "/proj"] /\
  path_exists denied_host (py "/proj") = true /\
  fst (main denied_host start) = Escapes OtherException permission_denied /\
  exit_status (fst (main denied_host start)) = 1%Z.
Proof. vm_compute. repeat split; reflexivity. Qed.

End ScannerClaims.

(* ===================================================================== *)
(** * The scanner wrapper: further properties *)
(* ===================================================================== *)

Module ScannerExtras.
Import Py PyFacts Scanner ScannerSpec ScannerFacts.

(** ** Locating the executable *)



(** X2.  The candidate paths are tried in their fixed order: the first one
    that is an executable file is returned, and then no child process is
    started, nothing is printed and the state is as before. *)
Theorem first_candidate_wins e st before path after :
  possible_paths e = before ++ path :: after ->
  Forall (fun q => is_executable_file e q = false) before ->
  is_executable_file e path = true ->
  find_system_semgrep e st = (Value (Some path), st).
Proof.
  intros Hp Hb Hx. unfold find_system_semgrep.
  rewrite Hp, (find_app_first _ _ _ _ Hb Hx). reflexivity.
Qed.

Lemma first_candidate_wins_witness :
  find_system_semgrep two_candidates_host start
  = (Value (Some (py "/usr/local/bin/semgrep")), start).
Proof.
  apply (first_candidate_wins two_candidates_host start [homebrew_semgrep]
           (py "/usr/local/bin/semgrep")
           [py "~/.local/bin/semgrep"; py "/usr/bin/semgrep"]).
  - reflexivity.
  - repeat constructor.
  - vm_compute. reflexivity.
Defined.


(** X4.  When no candidate path is an executable file and [which] exits
    with status 0, the path it printed is returned with the white space
    around it (the final line feed) stripped, provided it is an executable
    file. *)
Theorem lookup_path_is_stripped e st out err :
  no_candidate e ->
  subprocess_run e which_cmd 5 (cwd st) = Returned 0 out err ->
  strip out <> [] ->
  is_executable_file e (strip out) = true ->
  find_system_semgrep e st
  = (Value (Some (strip out)), log_call (Run which_cmd 5) st).
Proof.
  intros Hc Hrun Hne Hx. unfold find_system_semgrep.
  rewrite (find_none _ _ Hc). cbn [cwd log_call]. rewrite Hrun.
  destruct (strip out) as [|c s]; [contradiction|]. rewrite Hx. reflexivity.
Qed.

Lemma lookup_path_is_stripped_witness :
  find_system_semgrep snap_host start
  = (Value (Some snap_semgrep), log_call (Run which_cmd 5) start).
Proof.
  assert (Hs : strip (snap_semgrep ++ nl) = snap_semgrep)
    by (vm_compute; reflexivity).
  rewrite <- Hs at 1.
  apply (lookup_path_is_stripped snap_host start (snap_semgrep ++ nl) []).
  - unfold no_candidate. vm_compute. repeat constructor.
  - reflexivity.
  - rewrite Hs. discriminate.
  - vm_compute. reflexivity.
Defined.

(** ** The scan *)

(** X5.  When the working directory cannot be changed to the project path
    (it is not a directory, say), [run_semgrep_scan] returns a failure
    result that carries the message of the error and the command line;
    the scan is not started and the working directory is as before. *)
Theorem chdir_failure_is_reported e project_path configs st semgrep_path msg :
  fst (find_system_semgrep e st) = Value (Some semgrep_path) ->
  semgrep_path <> [] ->
  chdir_to e (cwd st) project_path = ChdirError msg ->
  let cmd := scan_cmd semgrep_path (configs_or_default configs) project_path in
  fst (run_semgrep_scan e project_path configs st)
  = Value (Result false (Some msg) (py "Error running Semgrep: " ++ msg)
             (Some (join (py " ") cmd)) None) /\
  calls (snd (run_semgrep_scan e project_path configs st))
  = calls (snd (find_system_semgrep e st)) /\
  cwd (snd (run_semgrep_scan e project_path configs st)) = cwd st.
Proof.
  intros H1 H2 H3 cmd.
  rewrite (run_chdir_error e project_path configs st semgrep_path H1 H2 msg H3).
  cbn [fst snd]. repeat split. apply find_system_semgrep_cwd.
Qed.

Lemma chdir_failure_is_reported_witness :
  fst (run_semgrep_scan stuck_host (py "/proj") None start)
  = Value (Result false (Some (py "[Errno 20] Not a directory: '/proj'"))
             (py "Error running Semgrep: [Errno 20] Not a directory: '/proj'")
             (Some (py "/opt/homebrew/bin/semgrep scan --config=p/swift --config=p/owasp-top-ten --config=p/secrets --json --verbose /proj"))
             None) /\
  calls (snd (run_semgrep_scan stuck_host (py "/proj") None start)) = [] /\
  cwd (snd (run_semgrep_scan stuck_host (py "/proj") None start))
  = py "/home/user".
Proof.
  destruct (chdir_failure_is_reported stuck_host (py "/proj") None start
              homebrew_semgrep (py "[Errno 20] Not a directory: '/proj'"))
    as (H1 & H2 & H3).
  - vm_compute. reflexivity.
  - discriminate.
  - reflexivity.
  - rewrite H1, H2, H3. repeat split.
Defined.

(** X6.  When starting or running the scan raises anything but a
    time-out, whatever the class of the exception, [run_semgrep_scan]
    returns a failure result whose [error] is the text of the exception
    and whose [output] is that text after ["Error running Semgrep: "],
    with the command line it attempted. *)
Theorem fault_gives_failure_result
    e project_path configs st semgrep_path dir cls msg :
  fst (find_system_semgrep e st) = Value (Some semgrep_path) ->
  semgrep_path <> [] ->
  chdir_to e (cwd st) project_path = Changed dir ->
  subprocess_run e (scan_cmd semgrep_path (configs_or_default configs) project_path)
    300 dir = Raised cls msg ->
  fst (run_semgrep_scan e project_path configs st)
  = Value (Result false (Some msg) (py "Error running Semgrep: " ++ msg)
             (Some (join (py " ")
                      (scan_cmd semgrep_path (configs_or_default configs) project_path)))
             None).
Proof.
  intros H1 H2 H3 H4.
  rewrite (run_raised e project_path configs st semgrep_path H1 H2 dir cls msg
             H3 H4).
  reflexivity.
Qed.

Lemma fault_gives_failure_result_witness :
  exists res,
    fst (run_semgrep_scan raising_host (py "/proj") None start) = Value res /\
    output res = py "Error running Semgrep: [Errno 8] Exec format error".
Proof.
  eexists.
  rewrite (fault_gives_failure_result raising_host (py "/proj") None start
             homebrew_semgrep (py "/proj") OtherException
             (py "[Errno 8] Exec format error")).
  - split; reflexivity.
  - vm_compute. reflexivity.
  - discriminate.
  - reflexivity.
  - reflexivity.
Defined.

(** X7.  Every result that [run_semgrep_scan] returns is consistent:
    [success] holds exactly when there is a return code and it is zero; a
    return code is present exactly when no error is recorded; and the
    command is [None] only in the result for a missing Semgrep. *)
Theorem result_is_consistent e project_path configs st res :
  fst (run_semgrep_scan e project_path configs st) = Value res ->
  (success res = true <-> return_code res = Some 0%Z) /\
  (return_code res = None <-> error res <> None) /\
  (command res = None ->
   error res = Some (py "Semgrep not found") /\ success res = false).
Proof.
  unfold run_semgrep_scan, get_installation_instructions, popen_date,
    fault_result, timeout_result.
  destruct (find_system_semgrep e st) as [sp s1].
  repeat case_match; cbn [fst]; try discriminate; intros [= <-];
    cbn [success return_code error command];
    (split; [|split]);
    try (split; [discriminate | discriminate]);
    try (split; congruence);
    try (intros _; split; reflexivity);
    try discriminate.
  split; intros Heq.
  - apply Z.eqb_eq in Heq. subst. reflexivity.
  - injection Heq as ->. reflexivity.
Qed.

Lemma result_is_consistent_witness :
  return_code (timeout_result (scan_cmd homebrew_semgrep default_configs (py "/proj")))
  = None <->
  error (timeout_result (scan_cmd homebrew_semgrep default_configs (py "/proj")))
  <> None.
Proof.
  apply (result_is_consistent timeout_host (py "/proj") None start).
  vm_compute. reflexivity.
Defined.

(** X8.  When no executable is located, the result does not depend on the
    [project_path] and [configs] arguments: the project directory named in
    the installation text is [sys.argv[1]] (or the working directory when
    the script has no argument), not the argument of the call. *)
Theorem not_found_ignores_arguments e st project_path configs :
  fst (find_system_semgrep e st) = Value None ->
  fst (run_semgrep_scan e project_path configs st)
  = Value (not_found_result e (snd (find_system_semgrep e st))).
Proof.
  intros H. rewrite (run_not_located e project_path configs st H). reflexivity.
Qed.

Lemma not_found_ignores_arguments_witness :
  exists res,
    fst (run_semgrep_scan bare_host (py "/elsewhere")
           (Some [py "p/python"]) start) = Value res /\
    output res
    = installation_text (py "Tue Nov  3 13:49:01 UTC 2026") (py "/proj").
Proof.
  eexists.
  rewrite (not_found_ignores_arguments bare_host start (py "/elsewhere")
             (Some [py "p/python"])).
  - split; [reflexivity|]. vm_compute. reflexivity.
  - vm_compute. reflexivity.
Defined.


(** X10.  The command line recorded in a result is the path of the
    executable, [scan], one [--config=] flag per rule pack in their order,
    [--json], [--verbose] and the project path, separated by single
    blanks. *)
Theorem command_line_shape semgrep_path configs project_path :
  join (py " ") (scan_cmd semgrep_path configs project_path)
  = semgrep_path ++ py " scan"
    ++ concat (map (fun config => py " --config=" ++ config) configs)
    ++ py " --json --verbose " ++ project_path.
Proof.
  assert (H : forall (l tail : list pystr) (x : pystr), tail <> [] ->
             join (py " ") (x :: l ++ tail)
             = x ++ concat (map (fun y => py " " ++ y) l)
               ++ py " " ++ join (py " ") tail).
  { intros l tail. induction l as [|y l IH]; intros x Ht.
    - apply join_cons, Ht.
    - change (x :: (y :: l) ++ tail) with (x :: y :: l ++ tail).
      rewrite join_cons by discriminate. rewrite (IH y Ht).
      cbn [map concat]. rewrite <- !app_assoc. reflexivity. }
  unfold scan_cmd.
  change ([semgrep_path; py "scan"] ++ ?l) with (semgrep_path :: py "scan" :: l).
  rewrite join_cons by discriminate.
  rewrite H by discriminate. rewrite map_map.
  rewrite (map_ext _ (fun config => py " --config=" ++ config))
    by (intros c; reflexivity).
  reflexivity.
Qed.

End ScannerExtras.

Module ScannerReportExtras.
Import Py PyFacts Scanner ScannerSpec ScannerFacts.

(** X11.  Started without a target path, [main] prints the usage line and
    exits with status 1; it starts no child process and leaves the working
    directory alone. *)
Theorem missing_argument_prints_usage e st :
  (length (argv e) < 2)%nat ->
  fst (main e st) = Value 1%Z /\
  stdout (snd (main e st))
  = stdout st ++ [py "Usage: python3 semgrep_standalone.py <project_path>"] /\
  calls (snd (main e st)) = calls st /\
  cwd (snd (main e st)) = cwd st.
Proof.
  intros H. unfold main.
  destruct (argv e) as [|prog [|p rest]]; [| |simpl in H; lia];
    repeat split.
Qed.

Lemma missing_argument_prints_usage_witness :
  fst (main no_argument_host start) = Value 1%Z /\
  calls (snd (main no_argument_host start)) = [].
Proof.
  destruct (missing_argument_prints_usage no_argument_host start)
    as (H1 & _ & H2 & _).
  - simpl. lia.
  - split; [exact H1 | exact H2].
Defined.

(** X12.  When the target path exists and no executable is located, [main]
    prints the installation text in place of the output, without a
    [Command:] line, then the line of the failed scan and the two lines
    that give the missing Semgrep as the reason, and closes the report.
    The date is read twice: for the head of the report before the lookup
    is run, and for the installation text after it, two child processes
    later. *)
Theorem not_found_report e st prog project_path rest :
  argv e = prog :: project_path :: rest ->
  path_exists e project_path = true ->
  fst (find_system_semgrep e st) = Value None ->
  fst (main e st) = Value 0%Z /\
  stdout (snd (main e st))
  = stdout st ++ report_head (date_at e st) project_path
    ++ [ installation_text (date_after 2 e st) project_path;
         [];
         10060 :: py " Scan failed or found issues";
         py "Reason: Semgrep is not installed or not in PATH";
         py "Please install Semgrep using one of the methods shown above." ]
    ++ report_trailer.
Proof.
  intros Hargv Hex Hnone.
  assert (Hnone' : fst (find_system_semgrep e (at_scan st)) = Value None)
    by (rewrite find_at_scan; exact Hnone).
  pose proof (run_not_located e project_path None (at_scan st) Hnone')
    as Hscan.
  apply (f_equal fst) in Hscan. cbn [fst] in Hscan.
  destruct (main_report e st prog project_path rest _ Hargv Hex Hscan)
    as [Hstatus ->].
  split; [exact Hstatus|].
  rewrite (find_system_semgrep_none e (at_scan st) Hnone').
  unfold not_found_result, report_body, date_at, date_after, at_scan.
  rewrite Hargv.
  cbn [command success output error truthy calls log_call].
  rewrite bool_decide_eq_true_2 by reflexivity.
  rewrite !length_app. cbn [length].
  replace (length (calls st) + 1 + 1)%nat with (length (calls st) + 2)%nat
    by lia.
  reflexivity.
Qed.

Lemma not_found_report_witness :
  stdout (snd (main bare_host start)) !! 4%nat
  = Some (py "Generated: Tue Nov  3 13:49:00 UTC 2026") /\
  stdout (snd (main bare_host start)) !! 8%nat
  = Some (installation_text (py "Tue Nov  3 13:49:02 UTC 2026") (py "/proj")) /\
  stdout (snd (main bare_host start)) !! 11%nat
  = Some (py "Reason: Semgrep is not installed or not in PATH").
Proof.
  destruct (not_found_report bare_host start (py "semgrep_standalone.py")
              (py "/proj") []) as [_ H].
  - reflexivity.
  - reflexivity.
  - vm_compute. reflexivity.
  - rewrite H. split; [|split]; vm_compute; reflexivity.
Defined.

(** X13.  When the scan ends with a non-zero exit status and the working
    directory can be changed back afterwards, [main] reports a failed scan
    whatever the scan printed: after the command line and the combined
    output it prints the line of the failed scan, no summary line and no
    reason, and closes the report. *)
Theorem nonzero_exit_is_reported_as_failure
    e st prog project_path rest semgrep_path dir returncode out err back :
  argv e = prog :: project_path :: rest ->
  path_exists e project_path = true ->
  fst (find_system_semgrep e st) = Value (Some semgrep_path) ->
  semgrep_path <> [] ->
  chdir_to e (cwd st) project_path = Changed dir ->
  subprocess_run e (scan_cmd semgrep_path default_configs project_path) 300 dir
  = Returned returncode out err ->
  chdir_to e dir (cwd st) = Changed back ->
  returncode <> 0%Z ->
  stdout (snd (main e st))
  = stdout st ++ report_head (date_at e st) project_path
    ++ [ py "Command: "
         ++ join (py " ") (scan_cmd semgrep_path default_configs project_path);
         [];
         out ++ err;
         [];
         10060 :: py " Scan failed or found issues" ]
    ++ report_trailer.
Proof.
  intros Hargv Hex Hfound Hne Hcd Hrun Hback Hrc.
  assert (Hfound' : fst (find_system_semgrep e (at_scan st))
                    = Value (Some semgrep_path))
    by (rewrite find_at_scan; exact Hfound).
  pose proof (run_returned e project_path None (at_scan st) semgrep_path
                Hfound' Hne dir returncode out err back Hcd Hrun Hback)
    as Hscan.
  apply (f_equal fst) in Hscan. cbn [fst] in Hscan.
  destruct (main_report e st prog project_path rest _ Hargv Hex Hscan)
    as [_ ->].
  unfold report_body. cbn [command success output error configs_or_default].
  rewrite join_scan_cmd_nonempty.
  apply Z.eqb_neq in Hrc. rewrite Hrc. reflexivity.
Qed.

Lemma nonzero_exit_is_reported_as_failure_witness :
  stdout (snd (main (exit_host 2 (dq ++ py "results" ++ dq ++ py ": [{}]")) start))
     !! 12%nat = Some (10060 :: py " Scan failed or found issues") /\
  length (stdout (snd (main (exit_host 2 (dq ++ py "results" ++ dq ++ py ": [{}]"))
                         start))) = 17%nat.
Proof.
  rewrite (nonzero_exit_is_reported_as_failure
             (exit_host 2 (dq ++ py "results" ++ dq ++ py ": [{}]")) start
             (py "semgrep_standalone.py") (py "/proj") [] homebrew_semgrep
             (py "/proj") 2%Z (dq ++ py "results" ++ dq ++ py ": [{}]") []
             (py "/home/user")).
  - split; reflexivity.
  - reflexivity.
  - reflexivity.
  - vm_compute. reflexivity.
  - discriminate.
  - reflexivity.
  - reflexivity.
  - reflexivity.
  - discriminate.
Defined.

(** X14.  On a target path that exists, [main] keeps what was printed
    before and prints the head of the report.  When the scan returns a
    result (Semgrep missing, time-out, fault, any exit status), [main]
    prints the [output] of the result, closes the report with the trailer
    and ends with status 0.  When the lookup raises an exception that
    [find_system_semgrep] does not catch, the head is all that is printed:
    the report is left open. *)
Theorem report_is_closed_unless_lookup_raises e st prog project_path rest :
  argv e = prog :: project_path :: rest ->
  path_exists e project_path = true ->
  ((forall msg, ~ lookup_escapes e (cwd st) msg) ->
   exists res before after,
     fst (run_semgrep_scan e project_path None (at_scan st)) = Value res /\
     fst (main e st) = Value 0%Z /\
     stdout (snd (main e st))
     = stdout st ++ report_head (date_at e st) project_path
       ++ before ++ [output res] ++ after ++ report_trailer) /\
  (forall msg, lookup_escapes e (cwd st) msg ->
     fst (main e st) = Escapes OtherException msg /\
     stdout (snd (main e st))
     = stdout st ++ report_head (date_at e st) project_path).
Proof.
  intros Hargv Hex. split.
  - intros Hcaught.
    destruct (fst (run_semgrep_scan e project_path None (at_scan st)))
      as [res|cls msg] eqn:Hscan.
    + destruct (main_report e st prog project_path rest res Hargv Hex Hscan)
        as [Hstatus ->].
      unfold report_body.
      match goal with
      | |- context [(?b ++ [?o] ++ ?a) ++ report_trailer] =>
          exists res, b, a
      end.
      split; [reflexivity|]. split; [exact Hstatus|].
      rewrite <- !app_assoc. reflexivity.
    + apply run_escapes_inv, find_system_semgrep_escapes_inv in Hscan.
      destruct Hscan as [_ Hesc]. destruct (Hcaught msg Hesc).
  - intros msg Hesc.
    apply (main_escapes e st prog project_path rest _ _ Hargv Hex).
    rewrite (run_escapes e project_path None (at_scan st) OtherException msg);
      [reflexivity|].
    rewrite (find_system_semgrep_escapes e (at_scan st) msg Hesc).
    reflexivity.
Qed.

Lemma report_is_closed_unless_lookup_raises_witness :
  (exists before after,
     stdout (snd (main timeout_host start))
     = report_head (py "Tue Nov  3 13:49:00 UTC 2026") (py "/proj")
       ++ before ++ [py "Semgrep scan timed out after 5 minutes"]
       ++ after ++ report_trailer) /\
  stdout (snd (main denied_host start))
  = report_head (py "Tue Nov  3 13:49:00 UTC 2026") (py "/proj").
Proof.
  split.
  - destruct (report_is_closed_unless_lookup_raises timeout_host start
                (py "semgrep_standalone.py") (py "/proj") [] eq_refl eq_refl)
      as [H _].
    destruct H as (res & before & after & Hres & _ & H).
    + intros msg [_ Hrun]. discriminate Hrun.
    + exists before, after. rewrite H.
      vm_compute in Hres. injection Hres as <-. reflexivity.
  - destruct (report_is_closed_unless_lookup_raises denied_host start
                (py "semgrep_standalone.py") (py "/proj") [] eq_refl eq_refl)
      as [_ H].
    destruct (H permission_denied) as [_ ->]; [|reflexivity].
    split; [unfold no_candidate; vm_compute; repeat constructor | reflexivity].
Defined.

(** X15.  The summary rests on the substring alone: when the scan exits
    with status 0, the working directory can be changed back, and the
    combined output holds an empty results array, ["results": []], [main]
    still prints ["Security issues found!"]. *)
Theorem empty_results_array_is_reported_as_issues
    e st prog project_path rest semgrep_path dir out err back a b :
  argv e = prog :: project_path :: rest ->
  path_exists e project_path = true ->
  fst (find_system_semgrep e st) = Value (Some semgrep_path) ->
  semgrep_path <> [] ->
  chdir_to e (cwd st) project_path = Changed dir ->
  subprocess_run e (scan_cmd semgrep_path default_configs project_path) 300 dir
  = Returned 0 out err ->
  chdir_to e dir (cwd st) = Changed back ->
  out ++ err = a ++ (dq ++ py "results" ++ dq ++ py ": []") ++ b ->
  stdout (snd (main e st))
  = stdout st ++ report_head (date_at e st) project_path
    ++ [ py "Command: "
         ++ join (py " ") (scan_cmd semgrep_path default_configs project_path);
         [];
         out ++ err;
         [];
         9989 :: py " Scan completed successfully";
         [9888; 65039] ++ py " Security issues found!" ]
    ++ report_trailer.
Proof.
  intros Hargv Hex Hfound Hne Hcd Hrun Hback Hout.
  assert (Hfound' : fst (find_system_semgrep e (at_scan st))
                    = Value (Some semgrep_path))
    by (rewrite find_at_scan; exact Hfound).
  pose proof (run_returned e project_path None (at_scan st) semgrep_path
                Hfound' Hne dir 0%Z out err back Hcd Hrun Hback) as Hscan.
  apply (f_equal fst) in Hscan. cbn [fst] in Hscan.
  destruct (main_report e st prog project_path rest _ Hargv Hex Hscan)
    as [_ ->].
  unfold report_body.
  cbn [command success output error Z.eqb configs_or_default].
  rewrite join_scan_cmd_nonempty.
  assert (Hc : contains results_marker (out ++ err) = true).
  { apply contains_spec. exists a, (py "]" ++ b). rewrite Hout.
    unfold results_marker. rewrite <- !app_assoc. reflexivity. }
  rewrite Hc. reflexivity.
Qed.

Lemma empty_results_array_is_reported_as_issues_witness :
  stdout (snd (main (clean_host (py "{" ++ dq ++ py "results" ++ dq ++ py ": []}"))
                 start)) !! 13%nat
  = Some ([9888; 65039] ++ py " Security issues found!").
Proof.
  rewrite (empty_results_array_is_reported_as_issues
             (clean_host (py "{" ++ dq ++ py "results" ++ dq ++ py ": []}")) start
             (py "semgrep_standalone.py") (py "/proj") [] homebrew_semgrep
             (py "/proj") (py "{" ++ dq ++ py "results" ++ dq ++ py ": []}") []
             (py "/home/user") (py "{") (py "}")).
  - reflexivity.
  - reflexivity.
  - reflexivity.
  - vm_compute. reflexivity.
  - discriminate.
  - reflexivity.
  - reflexivity.
  - reflexivity.
  - vm_compute. reflexivity.
Defined.

End ScannerReportExtras.

(* ===================================================================== *)
(** * The manifest patcher: further properties *)
(* ===================================================================== *)

Module PatcherLemmas.
Import Py PyFacts ReFacts Uuid Patcher PatcherSpec PatcherFacts PatcherSteps.
Import PatcherEntries.

(** ** What [re.finditer] returns *)

(** The matches, each with the text before it, and the text after the last
    one make up the subject. *)
Lemma finditer_loop_sound n re s :
  s = concat (map match_text (fst (finditer_loop n re s)))
      ++ snd (finditer_loop n re s).
Proof.
  revert s; induction n as [|n IH]; intros s; cbn [finditer_loop].
  - reflexivity.
  - destruct (re_search re s) as [[[pre gs] rest]|] eqn:E; [|reflexivity].
    specialize (IH rest). destruct (finditer_loop n re rest) as [ms tail].
    cbn [fst snd map concat] in *. apply re_search_Some in E.
    destruct E as [E _]. unfold match_text at 1. cbn [fst snd].
    rewrite <- !app_assoc, <- IH. exact E.
Qed.

(** Every match returned is a match of the pattern. *)
Lemma finditer_loop_matches n re s :
  Forall (fun m => exists rest,
              match_groups re (concat (snd m) ++ rest) = Some (snd m, rest))
    (fst (finditer_loop n re s)).
Proof.
  revert s; induction n as [|n IH]; intros s; cbn [finditer_loop].
  - constructor.
  - destruct (re_search re s) as [[[pre gs] rest]|] eqn:E; [|constructor].
    specialize (IH rest). destruct (finditer_loop n re rest) as [ms tail].
    cbn [fst] in *. constructor; [|exact IH].
    apply re_search_Some in E. destruct E as [_ E]. exists rest. exact E.
Qed.

(** ** [re.sub] keeps what it does not replace *)

Lemma sub_fold_sublist {S} (repl : list pystr -> S -> pystr * S) ms st :
  Forall (fun m => forall st', concat (snd m) `sublist_of` fst (repl (snd m) st'))
    ms ->
  concat (map match_text ms) `sublist_of` fst (sub_fold repl ms st).
Proof.
  intros H. revert st. induction H as [|[pre gs] ms Hm _ IH]; intros st.
  - reflexivity.
  - cbn [sub_fold map concat]. specialize (Hm st). cbn [snd] in Hm.
    destruct (repl gs st) as [r st1]. specialize (IH st1).
    destruct (sub_fold repl ms st1) as [out st2]. cbn [fst] in *.
    unfold match_text. cbn [fst snd]. rewrite <- !app_assoc.
    apply sublist_app; [reflexivity|]. apply sublist_app; assumption.
Qed.

Lemma re_sub_with_sublist {S} re (repl : list pystr -> S -> pystr * S) s st :
  (forall gs rest st',
      match_groups re (concat gs ++ rest) = Some (gs, rest) ->
      concat gs `sublist_of` fst (repl gs st')) ->
  s `sublist_of` fst (re_sub_with re repl s st).
Proof.
  intros H. unfold re_sub_with, re_finditer.
  pose proof (finditer_loop_sound (length s) re s) as Hs.
  pose proof (finditer_loop_matches (length s) re s) as Hm.
  destruct (finditer_loop (length s) re s) as [ms tail]. cbn [fst snd] in *.
  assert (Hsub : concat (map match_text ms)
                 `sublist_of` fst (sub_fold repl ms st)).
  { apply sub_fold_sublist. eapply Forall_impl; [exact Hm|].
    intros m [rest Hrest] st'. eapply H, Hrest. }
  destruct (sub_fold repl ms st) as [out st']. cbn [fst] in *.
  rewrite Hs at 1. apply sublist_app; [exact Hsub | reflexivity].
Qed.

(** ** [re.sub] and lengths *)

Lemma sub_fold_length {S} (repl : list pystr -> S -> pystr * S) ms st k :
  Forall (fun m => forall st',
              length (fst (repl (snd m) st')) = (length (concat (snd m)) + k)%nat)
    ms ->
  length (fst (sub_fold repl ms st))
  = (length (concat (map match_text ms)) + k * length ms)%nat.
Proof.
  intros H. revert st. induction H as [|[pre gs] ms Hm _ IH]; intros st.
  - simpl. lia.
  - cbn [sub_fold map concat]. specialize (Hm st). cbn [snd] in Hm.
    destruct (repl gs st) as [r st1]. specialize (IH st1).
    destruct (sub_fold repl ms st1) as [out st2]. cbn [fst] in *.
    unfold match_text at 1. cbn [fst snd length].
    rewrite !length_app, IH, Hm. lia.
Qed.

Lemma re_sub_with_length {S} re (repl : list pystr -> S -> pystr * S) s st k :
  (forall gs rest st',
      match_groups re (concat gs ++ rest) = Some (gs, rest) ->
      length (fst (repl gs st')) = (length (concat gs) + k)%nat) ->
  length (fst (re_sub_with re repl s st))
  = (length s + k * match_count re s)%nat.
Proof.
  intros H. unfold re_sub_with, match_count, re_finditer.
  pose proof (finditer_loop_sound (length s) re s) as Hs.
  pose proof (finditer_loop_matches (length s) re s) as Hm.
  destruct (finditer_loop (length s) re s) as [ms tail]. cbn [fst snd] in *.
  assert (Hlen : length (fst (sub_fold repl ms st))
                 = (length (concat (map match_text ms)) + k * length ms)%nat).
  { apply sub_fold_length. eapply Forall_impl; [exact Hm|].
    intros m [rest Hrest] st'. eapply H, Hrest. }
  destruct (sub_fold repl ms st) as [out st']. cbn [fst] in *.
  rewrite Hs at 1. rewrite !length_app, Hlen. lia.
Qed.

(** ** The replacements of the five substitutions *)

Lemma three_groups_of re s gs rest :
  length re = 3%nat -> match_groups re s = Some (gs, rest) ->
  exists g1 g2 g3, gs = [g1; g2; g3].
Proof.
  intros Hre H. apply match_groups_length in H. rewrite Hre in H.
  apply three_groups, H.
Qed.

Lemma marker_group marker s gs rest :
  match_groups [[Lit marker]] s = Some (gs, rest) -> gs = [marker].
Proof. intros H. apply match_groups_lit in H. apply H. Qed.

End PatcherLemmas.

Module PatcherExtras.
Import Py PyFacts ReFacts Uuid Patcher PatcherSpec PatcherFacts PatcherSteps.
Import PatcherEntries PatcherLemmas.

(** ** The files *)



(** ** The text *)

Lemma sub_marker_sublist marker block t :
  t `sublist_of` re_sub [[Lit marker]] (before_marker block marker) t.
Proof.
  unfold re_sub. apply re_sub_with_sublist. intros gs rest [] H.
  apply marker_group in H. subst gs. cbn [fst concat]. rewrite app_nil_r.
  unfold before_marker. rewrite !app_assoc. apply sublist_inserts_l. reflexivity.
Qed.

Lemma three_groups_sublist (g1 g2 g3 extra : pystr) :
  concat [g1; g2; g3] `sublist_of` g1 ++ g2 ++ extra ++ g3.
Proof.
  cbn [concat]. rewrite app_nil_r.
  apply sublist_app; [reflexivity|]. apply sublist_app; [reflexivity|].
  apply sublist_inserts_l. reflexivity.
Qed.

Lemma sub_main_group_sublist gid t : t `sublist_of` sub_main_group gid t.
Proof.
  unfold sub_main_group. apply re_sub_with_sublist. intros gs rest [] H.
  destruct (three_groups_of main_group_pattern _ gs rest eq_refl H)
    as (g1 & g2 & g3 & ->).
  cbn [fst]. rewrite add_resources_to_main_group_groups.
  rewrite (app_assoc nl). apply three_groups_sublist.
Qed.

Lemma sub_build_phase_sublist t r : t `sublist_of` fst (sub_build_phase t r).
Proof.
  unfold sub_build_phase. apply re_sub_with_sublist. intros gs rest r' H.
  destruct (three_groups_of resources_build_phase_pattern _ gs rest eq_refl H)
    as (g1 & g2 & g3 & ->).
  rewrite add_semgrep_to_resources_groups. cbn [fst].
  rewrite (app_assoc nl). apply three_groups_sublist.
Qed.

(** X18.  A run only inserts: whatever the manifest is, its text can be
    obtained from the text written by deleting characters, so no character
    of the manifest is lost or reordered. *)
Theorem run_only_inserts (content : pystr) (r : rng) :
  content `sublist_of` fst (patch_content content r).
Proof.
  rewrite patch_content_stages. cbn [fst].
  transitivity (after_main_group content r); [apply sub_main_group_sublist|].
  transitivity (after_group_def content r); [apply sub_marker_sublist|].
  transitivity (after_file_ref content r); [apply sub_marker_sublist|].
  transitivity (fst (after_build_phase content r));
    [apply sub_build_phase_sublist | apply sub_marker_sublist].
Qed.

(** X19.  A run draws three identifiers (group, file, build-file record)
    and one more for each block that [resources_build_phase_pattern]
    matches: the random source advances by 3 plus the number of those
    matches. *)
Theorem run_draws_three_plus_matches (content : pystr) (r : rng) :
  position (snd (patch_content content r))
  = (position r + 3
     + match_count resources_build_phase_pattern (after_file_ref content r))%nat
  /\ source (snd (patch_content content r)) = source r.
Proof.
  rewrite patch_content_stages. cbn [snd].
  unfold after_build_phase. rewrite sub_build_phase_entries.
  cbn [snd]. unfold shift, match_count. cbn [position source].
  split; [lia | reflexivity].
Qed.

Lemma sub_marker_length marker block t :
  length (re_sub [[Lit marker]] (before_marker block marker) t)
  = (length t + (length block + 4) * match_count [[Lit marker]] t)%nat.
Proof.
  unfold re_sub. apply re_sub_with_length. intros gs rest [] H.
  apply marker_group in H. subst gs. cbn [fst concat]. rewrite app_nil_r.
  unfold before_marker. rewrite !length_app. simpl. lia.
Qed.

(** X20.  Each match of a pattern adds exactly one entry, whatever the
    number of matches: the text written is longer than the manifest by 47
    characters per match of the root-group pattern, 189 per end of group
    section marker, 170 per end of file-reference section marker, 58 per
    match of the build-phase pattern and 143 per end of build-file section
    marker, each counted in the text its substitution is applied to. *)
Theorem run_adds_one_entry_per_match (content : pystr) (r : rng) :
  length (fst (patch_content content r))
  = (length content
     + 47 * match_count main_group_pattern content
     + 189 * match_count [[Lit end_group_marker]] (after_main_group content r)
     + 170 * match_count [[Lit end_file_reference_marker]]
               (after_group_def content r)
     + 58 * match_count resources_build_phase_pattern (after_file_ref content r)
     + 143 * match_count [[Lit end_build_file_marker]]
               (fst (after_build_phase content r)))%nat.
Proof.
  assert (L1 : length (after_main_group content r)
               = (length content + 47 * match_count main_group_pattern content)%nat).
  { unfold after_main_group, sub_main_group.
    apply re_sub_with_length. intros gs rest [] H.
    destruct (three_groups_of main_group_pattern _ gs rest eq_refl H)
      as (g1 & g2 & g3 & ->).
    cbn [fst]. rewrite add_resources_to_main_group_groups.
    unfold resources_entry. cbn [concat].
    rewrite !length_app, length_id_of_draw. simpl. lia. }
  assert (L2 : length (after_group_def content r)
               = (length (after_main_group content r)
                  + 189 * match_count [[Lit end_group_marker]]
                            (after_main_group content r))%nat).
  { unfold after_group_def, sub_group_def. rewrite sub_marker_length.
    unfold resources_group_def. rewrite !length_app, !length_id_of_draw.
    reflexivity. }
  assert (L3 : length (after_file_ref content r)
               = (length (after_group_def content r)
                  + 170 * match_count [[Lit end_file_reference_marker]]
                            (after_group_def content r))%nat).
  { unfold after_file_ref, sub_file_ref. rewrite sub_marker_length.
    unfold semgrep_file_ref. rewrite !length_app, !length_id_of_draw.
    reflexivity. }
  assert (L4 : length (fst (after_build_phase content r))
               = (length (after_file_ref content r)
                  + 58 * match_count resources_build_phase_pattern
                           (after_file_ref content r))%nat).
  { unfold after_build_phase, sub_build_phase.
    apply re_sub_with_length. intros gs rest r' H.
    destruct (three_groups_of resources_build_phase_pattern _ gs rest eq_refl H)
      as (g1 & g2 & g3 & ->).
    rewrite add_semgrep_to_resources_groups. cbn [fst concat].
    unfold semgrep_entry. rewrite !length_app, length_id_of_draw. simpl. lia. }
  rewrite patch_content_stages. cbn [fst]. unfold sub_build_file.
  rewrite sub_marker_length.
  unfold semgrep_build_file_ref. rewrite !length_app, !length_id_of_draw.
  rewrite L4, L3, L2, L1. simpl. lia.
Qed.

(** X21.  The loop that looks for the last entry of the root group never
    finds one, because the part of a line between its first and its second
    ["/*"] cannot contain ["/*"]: whatever the children are, the new entry
    is appended after the whole text of the second group, on a line of its
    own, and the prefix, the children and the suffix are kept as they
    are. *)
Theorem root_group_entry_is_always_appended
    (resources_group_id prefix children suffix : pystr) :
  last_group_line (split nl children) = (-1)%Z /\
  add_resources_to_main_group resources_group_id [prefix; children; suffix]
  = prefix ++ children ++ nl ++ resources_entry resources_group_id ++ suffix.
Proof.
  split; [apply last_group_line_none|].
  apply add_resources_to_main_group_groups.
Qed.

(** X27.  For each match of the build-phase pattern the callback keeps
    the three groups as they are and appends the new entry after the whole
    text of the files, on a line of its own; it draws exactly one
    identifier, the next of the random source. *)
Theorem build_phase_entry_is_appended (prefix files_ suffix : pystr) (r : rng) :
  fst (add_semgrep_to_resources [prefix; files_; suffix] r)
  = prefix ++ files_ ++ nl ++ semgrep_entry (fst (new_id r)) ++ suffix /\
  snd (add_semgrep_to_resources [prefix; files_; suffix] r) = snd (new_id r).
Proof.
  rewrite add_semgrep_to_resources_groups, new_id_eq. split; reflexivity.
Qed.

End PatcherExtras.

Module IdentifierExtras.
Import Py PyFacts Uuid Patcher PatcherSpec PatcherFacts.

(** ** The digits of an identifier *)

Lemma new_id_digits r :
  fst (new_id r)
  = take 24 (upper (hex32 (set_version4 (source r (position r) mod 2 ^ 128)))).
Proof.
  unfold new_id, uuid4, draw. cbn [fst].
  rewrite remove_hyphens_uuid_str. reflexivity.
Qed.

Lemma land_15_lt x : N.land x 15 < 16.
Proof.
  change 15 with (N.ones 4). rewrite N.land_ones.
  apply N.mod_lt. discriminate.
Qed.

Lemma hex_digit_upper d :
  d < 16 -> is_upper_hex (upper_char (hex_digit d)) = true.
Proof.
  intros H.
  assert (d = 0 \/ d = 1 \/ d = 2 \/ d = 3 \/ d = 4 \/ d = 5 \/ d = 6 \/ d = 7
          \/ d = 8 \/ d = 9 \/ d = 10 \/ d = 11 \/ d = 12 \/ d = 13 \/ d = 14
          \/ d = 15) as Hd by lia.
  repeat (destruct Hd as [->|Hd]; [reflexivity|]). subst d. reflexivity.
Qed.

Lemma hex32_lookup u k :
  (k < 32)%nat ->
  hex32 u !! k
  = Some (hex_digit (N.land (N.shiftr u (4 * (31 - N.of_nat k))) 15)).
Proof.
  intros H. unfold hex32.
  change (map ?f ?l) with (f <$> l).
  rewrite list_lookup_fmap, lookup_seq_lt by exact H. reflexivity.
Qed.

Lemma id_lookup r k :
  (k < 24)%nat ->
  fst (new_id r) !! k
  = Some (upper_char (hex_digit
            (N.land (N.shiftr (set_version4 (source r (position r) mod 2 ^ 128))
                       (4 * (31 - N.of_nat k))) 15))).
Proof.
  intros H. rewrite new_id_digits, lookup_take_lt by exact H.
  unfold upper. change (map ?f ?l) with (f <$> l).
  rewrite list_lookup_fmap, hex32_lookup by lia. reflexivity.
Qed.

Lemma new_id_upper_hex r :
  Forall (fun c => is_upper_hex c = true) (fst (new_id r)).
Proof.
  rewrite new_id_digits. apply Forall_take. unfold upper, hex32.
  apply Forall_map, Forall_map, Forall_forall. intros k _.
  apply hex_digit_upper, land_15_lt.
Qed.

(** X22.  Every identifier consists of 24 upper-case hexadecimal digits
    ([0]-[9], [A]-[F]). *)
Theorem identifier_is_upper_hex (r : rng) :
  length (fst (new_id r)) = 24%nat /\
  Forall (fun c => is_upper_hex c = true) (fst (new_id r)).
Proof.
  split; [apply length_new_id|].
  rewrite new_id_digits. apply Forall_take. unfold upper, hex32.
  apply Forall_map, Forall_map, Forall_forall. intros k _.
  apply hex_digit_upper, land_15_lt.
Qed.

Lemma testbit_small c n : c < 2 ^ n -> N.testbit c n = false.
Proof.
  intros H. destruct (N.eq_dec c 0) as [->|Hc]; [apply N.bits_0|].
  apply N.bits_above_log2. apply N.log2_lt_pow2; lia.
Qed.

(** The digit of the version is 4. *)
Lemma version_nibble b : N.land (N.shiftr (set_version4 b) 76) 15 = 4.
Proof.
  apply N.bits_inj. intros n. unfold set_version4.
  rewrite N.land_spec, N.shiftr_spec'.
  repeat first [rewrite N.lor_spec | rewrite N.ldiff_spec].
  destruct (N.lt_ge_cases n 4) as [Hn|Hn].
  - assert (n = 0 \/ n = 1 \/ n = 2 \/ n = 3) as Hd by lia.
    destruct Hd as [-> | [-> | [-> | -> ]]];
      match goal with
      | |- context [N.testbit b ?k] => destruct (N.testbit b k)
      end; reflexivity.
  - rewrite (testbit_small 15 n), (testbit_small 4 n).
    + apply andb_false_r.
    + apply N.lt_le_trans with (2 ^ 4); [reflexivity|].
      apply N.pow_le_mono_r; [discriminate | exact Hn].
    + apply N.lt_le_trans with (2 ^ 4); [reflexivity|].
      apply N.pow_le_mono_r; [discriminate | exact Hn].
Qed.

(** The digit of the variant is 8, 9, a or b. *)
Lemma variant_nibble b :
  N.land (N.shiftr (set_version4 b) 60) 15
  = N.lor 8 (N.land (N.shiftr b 60) 3).
Proof.
  apply N.bits_inj. intros n. unfold set_version4.
  rewrite N.land_spec, N.shiftr_spec'.
  repeat first [rewrite N.lor_spec | rewrite N.ldiff_spec].
  rewrite N.land_spec, N.shiftr_spec'.
  destruct (N.lt_ge_cases n 4) as [Hn|Hn].
  - assert (n = 0 \/ n = 1 \/ n = 2 \/ n = 3) as Hd by lia.
    destruct Hd as [-> | [-> | [-> | -> ]]];
      match goal with
      | |- context [N.testbit b ?k] => destruct (N.testbit b k)
      end; reflexivity.
  - rewrite (testbit_small 15 n), (testbit_small 8 n), (testbit_small 3 n).
    + rewrite !andb_false_r. reflexivity.
    + apply N.lt_le_trans with (2 ^ 4); [reflexivity|].
      apply N.pow_le_mono_r; [discriminate | exact Hn].
    + apply N.lt_le_trans with (2 ^ 4); [reflexivity|].
      apply N.pow_le_mono_r; [discriminate | exact Hn].
    + apply N.lt_le_trans with (2 ^ 4); [reflexivity|].
      apply N.pow_le_mono_r; [discriminate | exact Hn].
Qed.

(** X23.  Two of the 24 characters are not random: the character at index
    12 is always [4] (the version of the UUID) and the character at index
    16 is one of [8], [9], [A], [B] (its variant). *)
Theorem version_and_variant_digits_are_fixed (r : rng) :
  fst (new_id r) !! 12%nat = Some 52 /\
  exists c, fst (new_id r) !! 16%nat = Some c /\
            (c = 56 \/ c = 57 \/ c = 65 \/ c = 66).
Proof.
  rewrite !id_lookup by lia.
  change (4 * (31 - N.of_nat 12)) with 76.
  change (4 * (31 - N.of_nat 16)) with 60.
  rewrite version_nibble, variant_nibble. split; [reflexivity|].
  eexists. split; [reflexivity|].
  pose proof (N.mod_lt (N.shiftr (source r (position r) mod 2 ^ 128) 60) 4)
    as Hlt.
  change 3 with (N.ones 2). rewrite N.land_ones.
  set (y := _ mod 2 ^ 2) in *.
  assert (y = 0 \/ y = 1 \/ y = 2 \/ y = 3) as Hy
    by (change (2 ^ 2) with 4 in *; lia).
  destruct Hy as [-> | [-> | [-> | -> ]]]; vm_compute; auto.
Qed.

(** The bits above the lowest 32 of a UUID depend on those bits of the
    random value only. *)
Lemma set_version4_high b b' :
  N.shiftr b 32 = N.shiftr b' 32 ->
  N.shiftr (set_version4 b) 32 = N.shiftr (set_version4 b') 32.
Proof.
  intros H. apply N.bits_inj. intros n. unfold set_version4.
  rewrite !N.shiftr_spec'.
  repeat first [rewrite N.lor_spec | rewrite N.ldiff_spec].
  rewrite <- !N.shiftr_spec', H. reflexivity.
Qed.

(** X24.  An identifier keeps the first 24 of the 32 digits of the UUID:
    two random values that differ in their lowest 32 bits only give the
    same identifier. *)
Theorem identifier_ignores_low_bits (r r' : rng) :
  N.shiftr (source r (position r) mod 2 ^ 128) 32
  = N.shiftr (source r' (position r') mod 2 ^ 128) 32 ->
  fst (new_id r) = fst (new_id r').
Proof.
  intros H. apply set_version4_high in H.
  apply list_eq. intros k.
  destruct (Nat.lt_ge_cases k 24) as [Hk|Hk].
  - rewrite !id_lookup by exact Hk. do 3 f_equal.
    assert (Hs : 4 * (31 - N.of_nat k) = 32 + (4 * (31 - N.of_nat k) - 32))
      by lia.
    rewrite Hs, <- !N.shiftr_shiftr, H. reflexivity.
  - rewrite !lookup_ge_None_2; [reflexivity | |];
      rewrite length_new_id; exact Hk.
Qed.

Lemma identifier_ignores_low_bits_witness :
  fst (new_id (Rng (fun _ => 4294967295) 0)) = fst (new_id (Rng (fun _ => 0) 0)).
Proof.
  apply identifier_ignores_low_bits. vm_compute. reflexivity.
Defined.

End IdentifierExtras.

Module PatternExtras.
Import Py PyFacts ReFacts Uuid Patcher PatcherSpec PatcherFacts.
Import IdentifierExtras.

(** ** What a pattern needs to match *)

Lemma match_plus_inv {R} c (k : pystr -> option (pystr * R)) s m r :
  match_plus c k s = Some (m, r) ->
  exists pre m' s', m = pre ++ m' /\ k s' = Some (m', r).
Proof.
  revert m; induction s as [|x s IH]; intros m.
  - rewrite match_plus_nil. discriminate.
  - rewrite match_plus_cons. destruct (in_class c x); [|discriminate].
    destruct (match_plus c k s) as [[m1 r1]|] eqn:E.
    + intros [= <- <-]. destruct (IH m1 eq_refl) as (pre & m' & s' & -> & Hk).
      exists (x :: pre), m', s'. split; [reflexivity | exact Hk].
    + destruct (k s) as [[m1 r1]|] eqn:E2; [|discriminate].
      intros [= <- <-]. exists [x], m1, s. split; [reflexivity | exact E2].
Qed.

(** The text a group matches contains each literal of the group. *)
Lemma match_items_literal {R} its (k : pystr -> option R) s m r l :
  match_items its k s = Some (m, r) -> In (Lit l) its ->
  exists a b, m = a ++ l ++ b.
Proof.
  revert s m; induction its as [|[l0|c] its IH]; intros s m H Hin.
  - destruct Hin.
  - simpl in H. destruct (strip_prefix l0 s) as [s'|]; [|discriminate].
    destruct (match_items its k s') as [[m' r']|] eqn:E; [|discriminate].
    injection H as <- <-. destruct Hin as [[= ->]|Hin].
    + exists [], m'. reflexivity.
    + destruct (IH _ _ E Hin) as (a & b & ->).
      exists (l0 ++ a), b. rewrite <- app_assoc. reflexivity.
  - simpl in H. destruct Hin as [[=]|Hin].
    apply match_plus_inv in H. destruct H as (pre & m' & s' & -> & H).
    destruct (IH _ _ H Hin) as (a & b & ->).
    exists (pre ++ a), b. rewrite <- app_assoc. reflexivity.
Qed.

(** A text without a literal of the first group of a pattern has no
    match of the pattern. *)
Lemma re_search_needs_literal g re l s :
  In (Lit l) g -> contains l s = false -> re_search (g :: re) s = None.
Proof.
  intros Hin Hc. destruct (re_search (g :: re) s) as [[[pre gs] rest]|] eqn:E;
    [|reflexivity].
  apply re_search_Some in E. destruct E as [Hs Hm]. simpl in Hm.
  destruct (match_items g (match_groups re) (concat gs ++ rest))
    as [[m [ms rest']]|] eqn:E; [|discriminate].
  injection Hm as <- <-.
  destruct (match_items_literal _ _ _ _ _ l E Hin) as (a & b & ->).
  assert (contains l s = true) as Ht.
  { apply contains_spec. exists (pre ++ a), (b ++ concat ms ++ rest').
    rewrite Hs. cbn [concat]. rewrite <- !app_assoc. reflexivity. }
  congruence.
Qed.

(** X25.  The root-group entry is added only to a manifest that spells its
    root group [mainGroup = {], and the build-phase entry only to one that
    has the block of the hard-coded identifier
    [02DAD4482E70CC2D00BB3786 /* Resources */ = {]: on a manifest without
    that text the substitution changes nothing and draws nothing. *)
Theorem entries_need_their_literal (content gid : pystr) (r : rng) :
  (contains (py "mainGroup = {") content = false ->
   sub_main_group gid content = content) /\
  (contains (py "02DAD4482E70CC2D00BB3786 /* Resources */ = {") content = false ->
   sub_build_phase content r = (content, r)).
Proof.
  split; intros H.
  - unfold sub_main_group, main_group_pattern.
    rewrite re_sub_with_no_match; [reflexivity|].
    apply (re_search_needs_literal _ _ (py "mainGroup = {")); [|exact H].
    simpl. auto 10.
  - unfold sub_build_phase, resources_build_phase_pattern.
    apply re_sub_with_no_match.
    apply (re_search_needs_literal _ _
             (py "02DAD4482E70CC2D00BB3786 /* Resources */ = {")); [|exact H].
    simpl. auto.
Qed.

Lemma entries_need_their_literal_witness :
  sub_main_group (id_of_draw sample_rng 0) manifest_without_main_group
  = manifest_without_main_group /\
  sub_build_phase
    (py "02DAD4482E70CC2D00BB3787 /* Resources */ = { files = ( a ); };")
    sample_rng
  = (py "02DAD4482E70CC2D00BB3787 /* Resources */ = { files = ( a ); };",
     sample_rng).
Proof.
  split.
  - apply (entries_need_their_literal manifest_without_main_group
             (id_of_draw sample_rng 0) sample_rng).
    vm_compute. reflexivity.
  - apply (entries_need_their_literal
             (py "02DAD4482E70CC2D00BB3787 /* Resources */ = { files = ( a ); };")
             [] sample_rng).
    vm_compute. reflexivity.
Defined.

(** ** The blocks *)

Lemma identifier_no_backslash r : ~ In 92 (fst (new_id r)).
Proof.
  intros H. pose proof (new_id_upper_hex r) as Hall.
  rewrite Forall_forall in Hall. apply list_elem_of_In in H.
  specialize (Hall 92 H). discriminate.
Qed.

(** X26.  The three blocks that are handed to [re.sub] as replacement
    templates hold no backslash, so [re.sub] inserts them as they are
    written: the only escapes of the templates are the two line feeds and
    the two tabs in front of the marker. *)
Theorem blocks_hold_no_backslash (r1 r2 r3 : rng) :
  let group_id := fst (new_id r1) in
  let file_id := fst (new_id r2) in
  let build_file_id := fst (new_id r3) in
  ~ In 92 (resources_group_def group_id file_id) /\
  ~ In 92 (semgrep_file_ref file_id) /\
  ~ In 92 (semgrep_build_file_ref build_file_id file_id).
Proof.
  intros group_id file_id build_file_id.
  pose proof (identifier_no_backslash r1) as H1.
  pose proof (identifier_no_backslash r2) as H2.
  pose proof (identifier_no_backslash r3) as H3.
  fold group_id in H1. fold file_id in H2. fold build_file_id in H3.
  unfold resources_group_def, semgrep_file_ref, semgrep_build_file_ref.
  repeat split; intros H; rewrite !in_app_iff in H;
    repeat (destruct H as [H|H]);
    try contradiction;
    vm_compute in H; repeat (destruct H as [H|H]); try discriminate H;
    contradiction.
Qed.

End PatternExtras.
